(** * EPI shop: the cart and catalog views of [epi_shops/views.py]

    A shallow embedding of the Django views of the EPI shop.  The two
    database tables the views touch ([Epis], the catalog, and [Carrinhos],
    the cart lines) are finite maps from primary key to row; a view is a
    function from the database to an outcome (a response or a raised
    exception) and the database it leaves behind. *)

From Stdlib Require Import ZArith String Ascii.
From stdpp Require Import base numbers option list strings gmap.

(** ** Data model *)

(** The [tipo] column of a cart line.  The views only ever name
    [Carrinhos.COMPRA]; any other value the column may hold is kept as its
    stored code. *)
Inductive Tipo : Type :=
  | COMPRA
  | OutroTipo (code : string).

#[global] Instance Tipo_eq_dec : EqDecision Tipo.
Proof. solve_decision. Defined.

(** A catalog row.  [valor] is the unit price, counted in the smallest
    currency unit so that sums and products are exact. *)
Record Epis : Type := mkEpis {
  nome : string;
  descricao : string;
  valor : Z;
  estoque : Z
}.

(** A cart row: the owning user, the catalog row it points to (a foreign
    key, kept as the primary key of the [Epis] row), the quantity (an integer
    as in Python; the range of its column is [in_column_range] below) and
    the kind. *)
Record Carrinhos : Type := mkCarrinhos {
  usuario : nat;
  epi : nat;
  quantidade : Z;
  tipo : Tipo
}.

Definition set_quantidade (q : Z) (c : Carrinhos) : Carrinhos :=
  {| usuario := usuario c; epi := epi c; quantidade := q; tipo := tipo c |}.

(** The database: one table per model, keyed by primary key. *)
Record DB : Type := mkDB {
  Epis_objects : gmap nat Epis;
  Carrinhos_objects : gmap nat Carrinhos
}.

Definition set_Carrinhos (t : gmap nat Carrinhos) (db : DB) : DB :=
  {| Epis_objects := Epis_objects db; Carrinhos_objects := t |}.

(** ** Exceptions and the view monad *)

Inductive exn : Type :=
  | Http404
  | NameError (name : string)
  | DoesNotExist
  | MultipleObjectsReturned
  | EmptyPage
  | OverflowError.

Inductive result (A : Type) : Type :=
  | Ok (a : A)
  | Raise (e : exn).
Arguments Ok {A} a.
Arguments Raise {A} e.

(** A view body runs against the database; writes made before an exception
    is raised stay written (every statement commits on its own). *)
Definition View (A : Type) : Type := DB → result A * DB.

#[global] Instance View_ret : MRet View := λ A a db, (Ok a, db).
#[global] Instance View_bind : MBind View := λ A B k m db,
  match m db with
  | (Ok a, db') => k a db'
  | (Raise e, db') => (Raise e, db')
  end.

Definition raise {A} (e : exn) : View A := λ db, (Raise e, db).
Definition lift {A} (r : result A) : View A := λ db, (r, db).
Definition read {A} (f : DB → A) : View A := λ db, (Ok (f db), db).
Definition query {A} (f : DB → result A) : View A := λ db, (f db, db).
Definition write_Carrinhos (f : gmap nat Carrinhos → gmap nat Carrinhos) : View unit :=
  λ db, (Ok tt, set_Carrinhos (f (Carrinhos_objects db)) db).

(** ** Query sets over a table *)

Section queryset.
Context {A : Type}.
Implicit Types (t : gmap nat A) (P : nat * A → Prop).

(** The primary key the store hands to a new row: one past the largest
    key in use, a key that no row has.  (A store that counts upwards and
    never hands a deleted key out again differs only in which free key it
    picks.) *)
Definition new_pk t : nat := S (max_list (map_to_list t).*1).

(** [Model.objects.all()]: the rows in the order the store answers an
    unordered query, by ascending primary key. *)
Definition objects_all t : list (nat * A) :=
  omap (λ k, pair k <$> t !! k) (seq 0 (new_pk t)).

(** [Model.objects.filter(...)]. *)
Definition objects_filter P `{∀ x, Decision (P x)} t : list (nat * A) :=
  filter P (objects_all t).

(** [Model.objects.get(...)]: exactly one row, or an exception. *)
Definition objects_get P `{∀ x, Decision (P x)} t : result (nat * A) :=
  match objects_filter P t with
  | [] => Raise DoesNotExist
  | [x] => Ok x
  | _ :: _ :: _ => Raise MultipleObjectsReturned
  end.

(** [get_object_or_404]: a missing row becomes [Http404]; anything else
    [get] raises is passed on. *)
Definition get_object_or_404 P `{∀ x, Decision (P x)} t : result (nat * A) :=
  match objects_get P t with
  | Raise DoesNotExist => Raise Http404
  | r => r
  end.

(** [Model.objects.create(...)]. *)
Definition objects_create (row : A) t : nat * gmap nat A :=
  let k := new_pk t in (k, <[k := row]> t).

(** [instance.save()] on a row that came from the table, which replaces
    the row under its key, and [instance.delete()].  Whether the store
    takes the values is checked where a view writes a value that no form
    validated (the sum in [add_to_cart]). *)
Definition save (k : nat) (row : A) t : gmap nat A := <[k := row]> t.
Definition delete_row (k : nat) t : gmap nat A := delete k t.
End queryset.

(** The lookups the views use. *)
Definition pk_is {A} (k : nat) (kr : nat * A) : Prop := kr.1 = k.
Definition usuario_is (u : nat) (kr : nat * Carrinhos) : Prop := usuario kr.2 = u.
Definition epi_is (i : nat) (kr : nat * Carrinhos) : Prop := epi kr.2 = i.
Definition tipo_is (k : Tipo) (kr : nat * Carrinhos) : Prop := tipo kr.2 = k.

#[global] Instance pk_is_dec {A} k (kr : nat * A) : Decision (pk_is k kr).
Proof. unfold pk_is. apply _. Defined.
#[global] Instance usuario_is_dec u kr : Decision (usuario_is u kr).
Proof. unfold usuario_is. apply _. Defined.
#[global] Instance epi_is_dec i kr : Decision (epi_is i kr).
Proof. unfold epi_is. apply _. Defined.
#[global] Instance tipo_is_dec k kr : Decision (tipo_is k kr).
Proof. unfold tipo_is. apply _. Defined.

(** ** Requests and responses *)

(** The [page] parameter of the query string, as [int()] sees it. *)
Inductive PageParam : Type :=
  | PageInt (n : Z)
  | PageLast
  | PageOther (raw : string).

(** What the views read from a request: the authenticated user (if any),
    the method, the [search] parameter, the [page] parameter ([None] when it
    is missing or empty), and the posted [quantidade] field ([None] when it
    is missing or not an integer). *)
Record Request : Type := mkRequest {
  user : option nat;
  method : string;
  GET_search : option string;
  GET_page : option PageParam;
  POST_quantidade : option Z
}.

Inductive Message : Type :=
  | msg_adicionado (quantidade : Z) (nome : string)
  | msg_removido (nome : string)
  | msg_atualizada (nome : string).

Inductive FormState : Type :=
  | FormUnbound
  | FormInvalid.

Record Page : Type := mkPage {
  object_list : list (nat * Epis);
  number : Z;
  num_pages_of : Z
}.

Inductive Context : Type :=
  | ctx_index (page_obj : Page) (carrinho_itens : list (nat * Carrinhos)) (valor_total : Z)
  | ctx_epi_list (page_obj : Page)
  | ctx_add_to_cart (form : FormState) (epi : nat * Epis)
  | ctx_carrinho (carrinho_itens : list (nat * Carrinhos)) (valor_total : Z)
  | ctx_update_cart (form : FormState) (item : nat * Carrinhos).

Inductive Response : Type :=
  | redirect_login
  | redirect (to : string) (pk : option nat) (msgs : list Message)
  | render (template : string) (ctx : Context)
  | method_not_allowed
  | options_allow (methods : list string).

(** [@login_required] and [LoginRequiredMixin]: an anonymous request is sent
    to the login page before the view body runs. *)
Definition login_required (request : Request) (body : nat → View Response) : View Response :=
  match user request with
  | Some u => body u
  | None => mret redirect_login
  end.

(** Modelled from the spec: [AddToCartForm] ([epi_shops/forms.py] is not
    among the sources).  The form has the single field [quantidade]; it is
    valid exactly when the posted value is an integer of at least 1 ("quantity
    must be a positive integer", "fails with ValidationError if quantity < 1"),
    and its cleaned data is that integer. *)
Definition AddToCartForm_clean (raw : option Z) : option Z :=
  match raw with
  | Some q => if bool_decide (1 ≤ q)%Z then Some q else None
  | None => None
  end.

(** ** The cart views *)

(** [item.epi]: following the foreign key reads the catalog at that
    moment. *)
Definition related_epi (c : Carrinhos) : View Epis :=
  λ db, match Epis_objects db !! epi c with
        | Some e => (Ok e, db)
        | None => (Raise DoesNotExist, db)
        end.

(** The [quantidade] column holds a signed 64-bit integer.  A quantity
    that went through the form is validated; the sum that [add_to_cart]
    computes is not, and the store refuses to write an integer outside the
    column's range: [save] then raises [OverflowError] and nothing is
    written. *)
Definition quantidade_min : Z := - 2 ^ 63.
Definition quantidade_max : Z := 2 ^ 63 - 1.
Definition in_column_range (q : Z) : Prop := (quantidade_min ≤ q ≤ quantidade_max)%Z.

#[global] Instance in_column_range_dec q : Decision (in_column_range q).
Proof. unfold in_column_range. apply _. Defined.

(** [Carrinhos.objects.get_or_create(usuario=u, epi=i, tipo=k,
    defaults={'quantidade': q})]. *)
Definition Carrinhos_get_or_create (u i : nat) (k : Tipo) (q : Z)
  : View (nat * Carrinhos * bool) :=
  λ db, match objects_get (λ kr, usuario_is u kr ∧ epi_is i kr ∧ tipo_is k kr)
                (Carrinhos_objects db) with
        | Ok row => (Ok (row, false), db)
        | Raise DoesNotExist =>
            let row := mkCarrinhos u i q k in
            let '(pk, t) := objects_create row (Carrinhos_objects db) in
            (Ok ((pk, row), true), set_Carrinhos t db)
        | Raise e => (Raise e, db)
        end.

Definition add_to_cart (request : Request) (pk : nat) : View Response :=
  login_required request (λ u,
    epi ← query (λ db, get_object_or_404 (pk_is pk) (Epis_objects db));
    if bool_decide (method request = "POST") then
      match AddToCartForm_clean (POST_quantidade request) with
      | Some qtd =>
          '(carrinho, created) ← Carrinhos_get_or_create u epi.1 COMPRA qtd;
          (if created : bool then mret tt
           else if bool_decide (in_column_range (quantidade carrinho.2 + qtd)) then
             write_Carrinhos
               (save carrinho.1
                  (set_quantidade (quantidade carrinho.2 + qtd)%Z carrinho.2))
           else raise OverflowError);;
          mret (redirect "epi_detail" (Some epi.1) [msg_adicionado qtd (nome epi.2)])
      | None =>
          mret (render "epi_shops/add_to_cart.html" (ctx_add_to_cart FormInvalid epi))
      end
    else
      mret (render "epi_shops/add_to_cart.html" (ctx_add_to_cart FormUnbound epi))).

(** [sum(item.epi.valor * item.quantidade for item in carrinho_itens)]:
    the running total starts at 0 and each line's price is read from the
    catalog when the line is reached. *)
Fixpoint sum_from (acc : Z) (carrinho_itens : list (nat * Carrinhos)) : View Z :=
  match carrinho_itens with
  | [] => mret acc
  | item :: rest =>
      e ← related_epi item.2;
      sum_from (acc + valor e * quantidade item.2)%Z rest
  end.

Definition view_cart_itens (u : nat) : View (list (nat * Carrinhos)) :=
  read (λ db, objects_filter (λ kr, usuario_is u kr ∧ tipo_is COMPRA kr)
                (Carrinhos_objects db)).

Definition view_cart (request : Request) : View Response :=
  login_required request (λ u,
    carrinho_itens ← view_cart_itens u;
    valor_total ← sum_from 0 carrinho_itens;
    mret (render "epi_shops/carrinho.html" (ctx_carrinho carrinho_itens valor_total))).

Definition remove_from_cart (request : Request) (item_id : nat) : View Response :=
  login_required request (λ u,
    item ← query (λ db, get_object_or_404 (λ kr, pk_is item_id kr ∧ usuario_is u kr)
                          (Carrinhos_objects db));
    write_Carrinhos (delete_row item.1);;
    e ← related_epi item.2;
    mret (redirect "view_cart" None [msg_removido (nome e)])).

Definition update_cart (request : Request) (item_id : nat) : View Response :=
  login_required request (λ u,
    item ← query (λ db, get_object_or_404 (λ kr, pk_is item_id kr ∧ usuario_is u kr)
                          (Carrinhos_objects db));
    if bool_decide (method request = "POST") then
      match AddToCartForm_clean (POST_quantidade request) with
      | Some qtd =>
          write_Carrinhos (save item.1 (set_quantidade qtd item.2));;
          e ← related_epi item.2;
          mret (redirect "view_cart" None [msg_atualizada (nome e)])
      | None =>
          mret (render "epi_shops/update_cart.html" (ctx_update_cart FormInvalid item))
      end
    else
      mret (render "epi_shops/update_cart.html" (ctx_update_cart FormUnbound item))).

(** ** The catalog views *)

(** [icontains]: the store compares without regard to the case of the
    letters A to Z. *)
Definition ascii_lower (c : ascii) : ascii :=
  let n := nat_of_ascii c in
  if (65 <=? n)%nat && (n <=? 90)%nat then ascii_of_nat (n + 32) else c.

Fixpoint lower (s : string) : string :=
  match s with
  | EmptyString => EmptyString
  | String c s' => String (ascii_lower c) (lower s')
  end.

Fixpoint contains (needle hay : string) : bool :=
  String.prefix needle hay ||
  match hay with
  | EmptyString => false
  | String _ hay' => contains needle hay'
  end.

Definition icontains (field q : string) : bool := contains (lower q) (lower field).

(** [Q(nome__icontains=q) | Q(descricao__icontains=q)]. *)
Definition search_matches (q : string) (kr : nat * Epis) : Prop :=
  icontains (nome kr.2) q = true ∨ icontains (descricao kr.2) q = true.

#[global] Instance search_matches_dec q kr : Decision (search_matches q kr).
Proof. unfold search_matches. apply _. Defined.

(** A query string parameter is truthy when it is present and not empty. *)
Definition truthy (o : option string) : option string :=
  match o with
  | Some EmptyString | None => None
  | Some q => Some q
  end.

(** [EpiList.get_queryset]. *)
Definition get_queryset (request : Request) (epis : gmap nat Epis) : list (nat * Epis) :=
  let queryset := objects_all epis in
  match truthy (GET_search request) with
  | Some search_query => filter (search_matches search_query) queryset
  | None => queryset
  end.

(** *** The paginator

    Django's [Paginator], which [ListView] builds from [paginate_by] and
    which [index] names directly. *)

Definition drop_take {A} (bottom top : Z) (l : list A) : list A :=
  take (Z.to_nat (top - bottom)) (drop (Z.to_nat bottom) l).

Section paginator.
Context (object_list : list (nat * Epis)) (per_page : Z).

Definition count : Z := Z.of_nat (length object_list).

(** [Paginator.num_pages], with no orphans and an empty first page allowed:
    [ceil(max(1, count) / per_page)]. *)
Definition num_pages : Z := - ((- Z.max 1 count) / per_page).

(** [Paginator.validate_number] on an integer. *)
Definition validate_number (n : Z) : option Z :=
  if bool_decide (n < 1)%Z then None
  else if bool_decide (n > num_pages)%Z then None
  else Some n.

(** [Paginator.page]: the slice [object_list[bottom:top]]. *)
Definition page (n : Z) : option Page :=
  n ← validate_number n;
  let bottom := ((n - 1) * per_page)%Z in
  let top := (bottom + per_page)%Z in
  let top := if bool_decide (top >= count)%Z then count else top in
  Some (mkPage (drop_take bottom top object_list) n num_pages).

(** [Paginator.get_page]: anything that is not an integer gives page 1, an
    integer out of range gives the last page. *)
Definition get_page (p : option PageParam) : option Page :=
  match p with
  | Some (PageInt n) =>
      match validate_number n with
      | Some n => page n
      | None => page num_pages
      end
  | _ => page 1
  end.
End paginator.

Definition paginate_by : Z := 10.

(** [MultipleObjectMixin.paginate_queryset]: the page number comes from the
    query string and defaults to 1; ["last"] is the last page; any other
    text, and any page the paginator rejects, is a 404. *)
Definition paginate_queryset (request : Request) (queryset : list (nat * Epis))
    (page_size : Z) : result Page :=
  let page_number :=
    match GET_page request with
    | None => Some 1%Z
    | Some (PageInt n) => Some n
    | Some PageLast => Some (num_pages queryset page_size)
    | Some (PageOther _) => None
    end in
  match page_number with
  | None => Raise Http404
  | Some n =>
      match page queryset page_size n with
      | Some p => Ok p
      | None => Raise Http404
      end
  end.

(** [View.dispatch] of a class-based view that defines only [get]: a GET
    or a HEAD runs it, an OPTIONS is answered with the methods allowed, any
    other method with 405. *)
Definition dispatch_get (request : Request) (handler : View Response) : View Response :=
  if bool_decide (method request = "GET" ∨ method request = "HEAD") then handler
  else if bool_decide (method request = "OPTIONS") then
    mret (options_allow ["GET"; "HEAD"; "OPTIONS"])
  else mret method_not_allowed.

(** [EpiList], a [ListView] behind [LoginRequiredMixin]. *)
Definition EpiList (request : Request) : View Response :=
  login_required request (λ _,
    dispatch_get request (
      queryset ← read (λ db, get_queryset request (Epis_objects db));
      page_obj ← lift (paginate_queryset request queryset paginate_by);
      mret (render "epi_shops/epi_list.html" (ctx_epi_list page_obj)))).

(** *** Name resolution in [views.py]

    A global name used in a function body is looked up when the statement
    runs: first among the names the module binds (its imports, functions and
    classes), then among the builtins. *)
Definition module_globals : list string :=
  [ "render"; "redirect"; "get_object_or_404";
    "reverse_lazy"; "reverse";
    "ListView"; "DetailView"; "CreateView"; "UpdateView"; "DeleteView";
    "Epis"; "Carrinhos";
    "EpiForm"; "AddToCartForm";
    "Q";
    "LoginRequiredMixin";
    "messages";
    "login_required";
    "HttpResponseRedirect";
    "index"; "EpiList"; "EpiDetail"; "EpiCreate"; "EpiUpdate"; "EpiDelete";
    "add_to_cart"; "view_cart"; "remove_from_cart"; "update_cart" ].

(** The builtin functions and types (the builtin exceptions and constants,
    left out here, are named [...Error], [...Warning], [...Exception],
    [True], [False], [None] and the like). *)
Definition builtins : list string :=
  [ "abs"; "aiter"; "all"; "anext"; "any"; "ascii"; "bin"; "bool";
    "breakpoint"; "bytearray"; "bytes"; "callable"; "chr"; "classmethod";
    "compile"; "complex"; "delattr"; "dict"; "dir"; "divmod"; "enumerate";
    "eval"; "exec"; "filter"; "float"; "format"; "frozenset"; "getattr";
    "globals"; "hasattr"; "hash"; "help"; "hex"; "id"; "input"; "int";
    "isinstance"; "issubclass"; "iter"; "len"; "list"; "locals"; "map";
    "max"; "memoryview"; "min"; "next"; "object"; "oct"; "open"; "ord";
    "pow"; "print"; "property"; "range"; "repr"; "reversed"; "round";
    "set"; "setattr"; "slice"; "sorted"; "staticmethod"; "str"; "sum";
    "super"; "tuple"; "type"; "vars"; "zip" ].

Definition load_global (name : string) : View unit :=
  if bool_decide (name ∈ module_globals ++ builtins) then mret tt
  else raise (NameError name).

Definition index_itens (u : nat) : View (list (nat * Carrinhos)) :=
  read (λ db, objects_filter (usuario_is u) (Carrinhos_objects db)).

(** [index], statement by statement. *)
Definition index (request : Request) : View Response :=
  login_required request (λ u,
    epis ← match truthy (GET_search request) with
           | Some search_query =>
               load_global "Epis";; load_global "Q";; load_global "Q";;
               read (λ db, filter (search_matches search_query)
                             (objects_all (Epis_objects db)))
           | None =>
               load_global "Epis";;
               read (λ db, objects_all (Epis_objects db))
           end;
    load_global "Paginator";;
    page_obj ← lift (match get_page epis 10 (GET_page request) with
                     | Some p => Ok p
                     | None => Raise EmptyPage
                     end);
    load_global "Carrinhos";;
    carrinho_itens ← index_itens u;
    load_global "sum";;
    valor_total ← sum_from 0 carrinho_itens;
    load_global "AddToCartForm";;
    load_global "render";;
    mret (render "epi_shops/index.html" (ctx_index page_obj carrinho_itens valor_total))).

(** ** The vocabulary of the statements *)

(** The cart lines of a (user, item, kind) triple. *)
Definition cart_lines (u i : nat) (k : Tipo) (db : DB) : list (nat * Carrinhos) :=
  objects_filter (λ kr, usuario_is u kr ∧ epi_is i kr ∧ tipo_is k kr)
    (Carrinhos_objects db).

(** A POST by user [u] carrying the integer [q] in its [quantidade] field. *)
Definition posts (request : Request) (u : nat) (q : Z) : Prop :=
  user request = Some u ∧ method request = "POST" ∧ POST_quantidade request = Some q.

(** The stores the three cart views can produce from an empty cart table,
    over any catalog and by any requests whatever. *)
Inductive reachable : DB → Prop :=
  | reach_empty epis : reachable (mkDB epis ∅)
  | reach_add db request pk :
      reachable db → reachable (add_to_cart request pk db).2
  | reach_update db request item_id :
      reachable db → reachable (update_cart request item_id db).2
  | reach_remove db request item_id :
      reachable db → reachable (remove_from_cart request item_id db).2.

(** No two rows of the cart table agree on user, item and kind. *)
Definition one_per_triple (t : gmap nat Carrinhos) : Prop :=
  ∀ k1 k2 r1 r2, t !! k1 = Some r1 → t !! k2 = Some r2 →
    usuario r1 = usuario r2 → epi r1 = epi r2 → tipo r1 = tipo r2 → k1 = k2.

(** Every line of a reachable store is a purchase request for an item of
    the catalog. *)
Definition compra_in_catalog (db : DB) : Prop :=
  ∀ k r, Carrinhos_objects db !! k = Some r →
    tipo r = COMPRA ∧ is_Some (Epis_objects db !! epi r).

(** The value of a cart line at the prices of a given catalog. *)
Definition line_value (epis : gmap nat Epis) (c : Carrinhos) : Z :=
  match epis !! epi c with
  | Some e => valor e * quantidade c
  | None => 0
  end.

(** The sum of [price(item) * quantity] over a list of cart lines. *)
Definition total_of (epis : gmap nat Epis) (lines : list (nat * Carrinhos)) : Z :=
  foldr (λ kr acc, line_value epis kr.2 + acc)%Z 0%Z lines.

(** The spec's [total_value(user)]: the sum over all of the user's cart
    lines, at the catalog's prices. *)
Definition total_value (db : DB) (u : nat) : Z :=
  total_of (Epis_objects db) (objects_filter (usuario_is u) (Carrinhos_objects db)).

(** Referential integrity: every cart line points to a catalog row. *)
Definition fk_ok (db : DB) : Prop :=
  map_Forall (λ _ r, is_Some (Epis_objects db !! epi r)) (Carrinhos_objects db).

#[global] Instance fk_ok_dec db : Decision (fk_ok db).
Proof. unfold fk_ok. apply _. Defined.

(** Lines 31-32 of [index] and lines 160-161 of [view_cart]: the listing and
    the total each of them computes. *)
Definition index_valor_total (u : nat) : View Z :=
  carrinho_itens ← index_itens u; sum_from 0 carrinho_itens.

Definition view_cart_valor_total (u : nat) : View Z :=
  carrinho_itens ← view_cart_itens u; sum_from 0 carrinho_itens.

(** The user's lines of the purchase-request kind, and of any other kind. *)
Definition compra_lines (db : DB) (u : nat) : list (nat * Carrinhos) :=
  objects_filter (λ kr, usuario_is u kr ∧ tipo_is COMPRA kr) (Carrinhos_objects db).

Definition other_lines (db : DB) (u : nat) : list (nat * Carrinhos) :=
  objects_filter (λ kr, usuario_is u kr ∧ ¬ tipo_is COMPRA kr) (Carrinhos_objects db).


(** Two characters are the same letter when they are equal or are the
    capital and the small form of one of the letters A to Z (small is
    capital plus 32 in the character table); two texts are the same up to
    case when they are so character by character. *)
Definition is_capital (c : ascii) : Prop := 65 ≤ nat_of_ascii c ≤ 90.

Definition same_letter (a b : ascii) : Prop :=
  a = b
  ∨ (is_capital a ∧ nat_of_ascii b = nat_of_ascii a + 32)
  ∨ (is_capital b ∧ nat_of_ascii a = nat_of_ascii b + 32).

Inductive same_text : string → string → Prop :=
  | same_text_empty : same_text EmptyString EmptyString
  | same_text_cons a b s t :
      same_letter a b → same_text s t → same_text (String a s) (String b t).


(** The quantity the user's purchase-request line for an item holds (0
    when there is no such line). *)
Definition stored_quantity (u i : nat) (db : DB) : Z :=
  match cart_lines u i COMPRA db with
  | [(_, r)] => quantidade r
  | _ => 0%Z
  end.

(** ** Worked examples *)

Definition helmet : Epis := mkEpis "Helmet" "Hard hat, yellow" 2500 40.
Definition gloves : Epis := mkEpis "Gloves" "Leather work gloves" 0 12.
Definition catalog0 : gmap nat Epis := <[2%nat := gloves]> {[ 1%nat := helmet ]}.
Definition db0 : DB := mkDB catalog0 ∅.
Definition post (u : nat) (q : Z) : Request := mkRequest (Some u) "POST" None None (Some q).
Definition get (u : nat) : Request := mkRequest (Some u) "GET" None None None.

(** A store in which user 7 holds a line of another kind for the helmet,
    and one in which that line is for the free gloves. *)
Definition emprestimo : Tipo := OutroTipo "E".
Definition db_other : DB := mkDB catalog0 {[ 1%nat := mkCarrinhos 7 1 2 emprestimo ]}.
Definition db_other_free : DB := mkDB catalog0 {[ 1%nat := mkCarrinhos 7 2 1 emprestimo ]}.

(** The cart of user 7 after adding 2 helmets and then 3 more. *)
Definition after2 : DB :=
  (add_to_cart (post 7 3) 1 (add_to_cart (post 7 2) 1 db0).2).2.

(** A search for "HELM" by user 7. *)
Definition search_helm : Request := mkRequest (Some 7) "GET" (Some "HELM") None None.

(** A catalog of twelve boots, and the first page of its listing. *)
Definition catalog12 : gmap nat Epis :=
  list_to_map ((λ n, (n, mkEpis "Boot" "Safety boot" 100 (Z.of_nat n))) <$> seq 1 12).
Definition db12 : DB := mkDB catalog12 ∅.
Definition first_page_of_12 : Page :=
  match (EpiList (get 7) db12).1 with
  | Ok (render _ (ctx_epi_list p)) => p
  | _ => mkPage [] 0 0
  end.

(** ** The rest of [epi_shops/views.py] and [login_app/views.py] *)

(** [EpiDetail], a [DetailView] behind [LoginRequiredMixin]: the row whose
    primary key is in the URL, or a 404.  Its page carries that row and an
    unbound add-to-cart form, as the GET page of [add_to_cart] does. *)
Definition EpiDetail (request : Request) (pk : nat) : View Response :=
  login_required request (λ _,
    dispatch_get request (
      epi ← query (λ db, get_object_or_404 (pk_is pk) (Epis_objects db));
      mret (render "epi_shops/epi_detail.html" (ctx_add_to_cart FormUnbound epi)))).

(** What [login_view] reads from a request: the method and the posted
    [username] and [senha] fields. *)
Record AuthRequest : Type := mkAuthRequest {
  auth_method : string;
  POST_username : option string;
  POST_senha : option string
}.

Inductive AuthMessage : Type :=
  | msg_login_realizado
  | msg_credenciais_invalidas
  | msg_logout_realizado.

Inductive AuthResponse : Type :=
  | auth_redirect_login
  | auth_redirect (to : string) (msgs : list AuthMessage)
  | auth_render (template : string) (msgs : list AuthMessage).

(** [login_view].  The session holds the logged-in user, if any;
    [authenticate] is the authentication backend, which answers with a user
    or with nothing. *)
Definition login_view (authenticate : option string → option string → option nat)
    (request : AuthRequest) (session : option nat) : AuthResponse * option nat :=
  if bool_decide (auth_method request = "POST") then
    let username := POST_username request in
    let senha := POST_senha request in
    match authenticate username senha with
    | Some user => (auth_redirect "epi_list" [msg_login_realizado], Some user)
    | None =>
        (auth_render "login_app/pages/login.html" [msg_credenciais_invalidas], session)
    end
  else (auth_render "login_app/pages/login.html" [], session).

(** [logout_view], behind [@login_required]. *)
Definition logout_view (session : option nat) : AuthResponse * option nat :=
  match session with
  | Some _ => (auth_redirect "login" [msg_logout_realizado], None)
  | None => (auth_redirect_login, session)
  end.

(** *** More vocabulary *)

(** The same request asking for page [n]. *)
Definition set_page (n : Z) (request : Request) : Request :=
  mkRequest (user request) (method request) (GET_search request)
    (Some (PageInt n)) (POST_quantidade request).

(** The same request searching for [q]. *)
Definition set_search (q : string) (request : Request) : Request :=
  mkRequest (user request) (method request) (Some q)
    (GET_page request) (POST_quantidade request).

(** The rows on the page the listing answers with (none when it answers
    with anything else). *)
Definition EpiList_rows (request : Request) (db : DB) : list (nat * Epis) :=
  match (EpiList request db).1 with
  | Ok (render _ (ctx_epi_list p)) => object_list p
  | _ => []
  end.

(** A store in which user 7 has two purchase-request lines for the helmet,
    as a write outside the cart views could leave it. *)
Definition db_twice : DB :=
  mkDB catalog0 (<[2%nat := mkCarrinhos 7 1 4 COMPRA]> {[ 1%nat := mkCarrinhos 7 1 2 COMPRA ]}).

(** A backend that knows one user, and a request with her credentials. *)
Definition one_user (username senha : option string) : option nat :=
  if bool_decide (username = Some "ana" ∧ senha = Some "s3nha") then Some 7 else None.
Definition ana_posts : AuthRequest := mkAuthRequest "POST" (Some "ana") (Some "s3nha").

(** A request of nobody, and the line user 7 has in [after2]. *)
Definition anonymous : Request := mkRequest None "GET" None None None.
Definition five_helmets : Carrinhos := mkCarrinhos 7 1 5 COMPRA.


(** A cart whose helmet line holds the largest quantity the column takes. *)
Definition db_full : DB :=
  mkDB catalog0 {[ 1%nat := mkCarrinhos 7 1 quantidade_max COMPRA ]}.

(** * Properties *)

(** ** Query set lemmas *)

Section queryset_lemmas.
Context {A : Type}.
Implicit Types (t : gmap nat A) (P : nat * A → Prop).

Lemma lookup_lt_new_pk t k r : t !! k = Some r → k < new_pk t.
Proof.
  intros Hk.
  assert (k ∈ (map_to_list t).*1) as Hin.
  { apply list_elem_of_fmap. exists (k, r). split; [done|].
    by apply elem_of_map_to_list. }
  apply max_list_elem_of_le in Hin. unfold new_pk. lia.
Qed.

Lemma elem_of_objects_all t k r : (k, r) ∈ objects_all t ↔ t !! k = Some r.
Proof.
  unfold objects_all. rewrite list_elem_of_omap. split.
  - intros (k' & _ & Hk'). destruct (t !! k') as [r'|] eqn:E; simplify_eq/=. done.
  - intros Hk. exists k. split.
    + apply elem_of_seq. pose proof (lookup_lt_new_pk t k r Hk). lia.
    + by rewrite Hk.
Qed.

(** The keys of the listing ascend, so no key and no row comes twice. *)
Lemma objects_all_keys t :
  (objects_all t).*1 = filter (λ k, is_Some (t !! k)) (seq 0 (new_pk t)).
Proof.
  unfold objects_all. induction (seq 0 (new_pk t)) as [|k l IH]; [done|].
  rewrite filter_cons. destruct (decide (is_Some (t !! k))) as [[r Hr]|Hn]; csimpl.
  - rewrite Hr. csimpl. by rewrite IH.
  - destruct (t !! k) as [r|] eqn:E; [destruct Hn; by eexists|]. done.
Qed.

Lemma NoDup_objects_all t : NoDup (objects_all t).
Proof.
  apply (NoDup_fmap_1 fst). rewrite objects_all_keys.
  apply NoDup_filter, NoDup_seq.
Qed.

Lemma objects_all_perm t : objects_all t ≡ₚ map_to_list t.
Proof.
  apply NoDup_Permutation; [apply NoDup_objects_all|apply NoDup_map_to_list|].
  intros [k r]. by rewrite elem_of_objects_all, elem_of_map_to_list.
Qed.

Lemma elem_of_objects_filter P `{∀ x, Decision (P x)} t k r :
  (k, r) ∈ objects_filter P t ↔ P (k, r) ∧ t !! k = Some r.
Proof.
  unfold objects_filter.
  rewrite list_elem_of_filter, elem_of_objects_all. done.
Qed.

Lemma NoDup_objects_filter P `{∀ x, Decision (P x)} t : NoDup (objects_filter P t).
Proof. apply NoDup_filter, NoDup_objects_all. Qed.

(** A filter that no row passes is empty. *)
Lemma objects_filter_none P `{∀ x, Decision (P x)} t :
  (∀ k r, t !! k = Some r → ¬ P (k, r)) → objects_filter P t = [].
Proof.
  intros Hno. apply elem_of_nil_inv. intros [k r] Hin.
  apply elem_of_objects_filter in Hin as [HP Hk]. by eapply Hno.
Qed.

(** A filter that exactly one row passes is that row. *)
Lemma objects_filter_one P `{∀ x, Decision (P x)} t k r :
  t !! k = Some r → P (k, r) →
  (∀ k' r', t !! k' = Some r' → P (k', r') → k' = k) →
  objects_filter P t = [(k, r)].
Proof.
  intros Hk HP Huniq. apply Permutation_singleton_r.
  apply NoDup_Permutation.
  - apply NoDup_objects_filter.
  - apply NoDup_singleton.
  - intros [k' r']. rewrite elem_of_objects_filter, list_elem_of_singleton. split.
    + intros [HP' Hk']. assert (k' = k) as -> by eauto. congruence.
    + intros [= -> ->]. done.
Qed.

(** Conversely, the rows of a filter of length at most one. *)
Lemma objects_filter_length_le_1 P `{∀ x, Decision (P x)} t :
  (∀ k1 k2 r1 r2, t !! k1 = Some r1 → t !! k2 = Some r2 →
     P (k1, r1) → P (k2, r2) → k1 = k2) →
  length (objects_filter P t) ≤ 1.
Proof.
  intros Huniq. destruct (objects_filter P t) as [|[k r] l] eqn:E; simpl; [lia|].
  assert ((k, r) ∈ objects_filter P t) as Hin by (rewrite E; left).
  apply elem_of_objects_filter in Hin as [HP Hk].
  rewrite (objects_filter_one P t k r) in E; eauto.
  injection E as <-. simpl. lia.
Qed.

Lemma new_pk_fresh t : t !! new_pk t = None.
Proof.
  destruct (t !! new_pk t) as [r|] eqn:E; [|done].
  assert (new_pk t ∈ (map_to_list t).*1) as Hin.
  { apply list_elem_of_fmap. exists (new_pk t, r). split; [done|].
    by apply elem_of_map_to_list. }
  apply max_list_elem_of_le in Hin. unfold new_pk in Hin at 1. lia.
Qed.

(** Looking a row up by primary key (with a further condition on it). *)
Lemma get_by_pk_found (Q : nat * A → Prop) `{∀ x, Decision (Q x)} t k r :
  t !! k = Some r → Q (k, r) →
  get_object_or_404 (λ kr, pk_is k kr ∧ Q kr) t = Ok (k, r).
Proof.
  intros Hk HQ. unfold get_object_or_404, objects_get.
  rewrite (objects_filter_one _ t k r); [done..|].
  by intros k' r' _ [Hpk _].
Qed.

Lemma get_by_pk_missing (Q : nat * A → Prop) `{∀ x, Decision (Q x)} t k :
  (∀ r, t !! k = Some r → ¬ Q (k, r)) →
  get_object_or_404 (λ kr, pk_is k kr ∧ Q kr) t = Raise Http404.
Proof.
  intros Hno. unfold get_object_or_404, objects_get.
  rewrite objects_filter_none; [done|].
  intros k' r' Hk' [Hpk HQ]. unfold pk_is in Hpk; simpl in Hpk; subst k'.
  by eapply Hno.
Qed.

Lemma get_pk_found t k r :
  t !! k = Some r → get_object_or_404 (pk_is k) t = Ok (k, r).
Proof.
  intros Hk. unfold get_object_or_404, objects_get.
  rewrite (objects_filter_one _ t k r); [done..|].
  by intros k' r' _ Hpk.
Qed.
End queryset_lemmas.

(** ** The cart: what a request does to the store *)

Lemma clean_valid q : (1 ≤ q)%Z → AddToCartForm_clean (Some q) = Some q.
Proof. intros Hq. unfold AddToCartForm_clean. by rewrite bool_decide_eq_true_2. Qed.

Lemma clean_invalid q : (q ≤ 0)%Z → AddToCartForm_clean (Some q) = None.
Proof.
  intros Hq. unfold AddToCartForm_clean. rewrite bool_decide_eq_false_2; [done|lia].
Qed.

Local Ltac run_view :=
  unfold login_required, mbind, mret, View_bind, View_ret, read, query, lift,
    write_Carrinhos, raise; simpl.

(** The first add for a triple creates its line. *)
Lemma add_to_cart_creates request u q i e db :
  posts request u q → (1 ≤ q)%Z →
  Epis_objects db !! i = Some e →
  cart_lines u i COMPRA db = [] →
  add_to_cart request i db =
    (Ok (redirect "epi_detail" (Some i) [msg_adicionado q (nome e)]),
     set_Carrinhos (<[new_pk (Carrinhos_objects db) := mkCarrinhos u i q COMPRA]>
                      (Carrinhos_objects db)) db).
Proof.
  intros (Hu & Hm & Hq) Hpos He Hnone.
  unfold add_to_cart. run_view. rewrite Hu, Hm, Hq, (clean_valid _ Hpos).
  rewrite (get_pk_found _ _ _ He). simpl.
  unfold Carrinhos_get_or_create, objects_get.
  unfold cart_lines in Hnone. rewrite Hnone. done.
Qed.

(** An add for a triple that has its line increments that line, when the
    sum is within the column's range. *)
Lemma add_to_cart_increments request u q i e k r db :
  posts request u q → (1 ≤ q)%Z →
  Epis_objects db !! i = Some e →
  cart_lines u i COMPRA db = [(k, r)] →
  in_column_range (quantidade r + q) →
  add_to_cart request i db =
    (Ok (redirect "epi_detail" (Some i) [msg_adicionado q (nome e)]),
     set_Carrinhos (<[k := set_quantidade (quantidade r + q) r]>
                      (Carrinhos_objects db)) db).
Proof.
  intros (Hu & Hm & Hq) Hpos He Hone Hrange.
  unfold add_to_cart. run_view. rewrite Hu, Hm, Hq, (clean_valid _ Hpos).
  rewrite (get_pk_found _ _ _ He). simpl.
  unfold Carrinhos_get_or_create, objects_get.
  unfold cart_lines in Hone. rewrite Hone. simpl.
  by rewrite bool_decide_eq_true_2.
Qed.

(** Beyond the column's range the add raises and writes nothing. *)
Lemma add_to_cart_overflows request u q i e k r db :
  posts request u q → (1 ≤ q)%Z →
  Epis_objects db !! i = Some e →
  cart_lines u i COMPRA db = [(k, r)] →
  ¬ in_column_range (quantidade r + q) →
  add_to_cart request i db = (Raise OverflowError, db).
Proof.
  intros (Hu & Hm & Hq) Hpos He Hone Hrange.
  unfold add_to_cart. run_view. rewrite Hu, Hm, Hq, (clean_valid _ Hpos).
  rewrite (get_pk_found _ _ _ He). simpl.
  unfold Carrinhos_get_or_create, objects_get.
  unfold cart_lines in Hone. rewrite Hone. simpl.
  by rewrite bool_decide_eq_false_2.
Qed.



(** *** Update and remove *)


Lemma update_cart_rejects request u q item_id r db :
  posts request u q → (q ≤ 0)%Z →
  Carrinhos_objects db !! item_id = Some r → usuario r = u →
  update_cart request item_id db =
    (Ok (render "epi_shops/update_cart.html" (ctx_update_cart FormInvalid (item_id, r))),
     db).
Proof.
  intros (Hu & Hm & Hq) Hneg Hk Hr.
  unfold update_cart. run_view. rewrite Hu, Hm, Hq, (clean_invalid _ Hneg).
  by rewrite (get_by_pk_found (usuario_is u) _ _ _ Hk Hr).
Qed.



(** C6. For a line of user u and a posted quantity q ≤ 0, update_cart
    answers with the form and its validation error, and the database it
    leaves is the database it found: the line keeps its quantity and no
    other row changes. *)
Theorem update_nonpositive_rejected request u q item_id r db :
  posts request u q → (q ≤ 0)%Z →
  Carrinhos_objects db !! item_id = Some r → usuario r = u →
  update_cart request item_id db =
    (Ok (render "epi_shops/update_cart.html" (ctx_update_cart FormInvalid (item_id, r))),
     db)
  ∧ Carrinhos_objects (update_cart request item_id db).2 !! item_id = Some r.
Proof.
  intros Hp Hneg Hk Hr.
  rewrite (update_cart_rejects _ _ _ _ _ _ Hp Hneg Hk Hr). done.
Qed.

(** C7. When item_id names no cart line, or a line owned by another user,
    remove_from_cart raises Http404 and leaves the database as it was, so a
    line of another user under that key is still there, unchanged. *)
Theorem remove_foreign_line_404 request u item_id db :
  user request = Some u →
  (∀ r, Carrinhos_objects db !! item_id = Some r → usuario r ≠ u) →
  remove_from_cart request item_id db = (Raise Http404, db)
  ∧ Carrinhos_objects (remove_from_cart request item_id db).2 !! item_id
    = Carrinhos_objects db !! item_id.
Proof.
  intros Hu Hforeign.
  assert (remove_from_cart request item_id db = (Raise Http404, db)) as ->; [|done].
  unfold remove_from_cart. run_view. rewrite Hu.
  by rewrite (get_by_pk_missing (usuario_is u) _ _ Hforeign).
Qed.

(** *** Reachable stores *)

Lemma objects_get_Ok {A} (P : nat * A → Prop) `{∀ x, Decision (P x)} (t : gmap nat A) k r :
  objects_get P t = Ok (k, r) → objects_filter P t = [(k, r)].
Proof.
  unfold objects_get. destruct (objects_filter P t) as [|x [|y l]]; congruence.
Qed.

Lemma get_object_or_404_Ok {A} (P : nat * A → Prop) `{∀ x, Decision (P x)}
    (t : gmap nat A) k r :
  get_object_or_404 P t = Ok (k, r) → t !! k = Some r ∧ P (k, r).
Proof.
  unfold get_object_or_404. intros Hget.
  assert (objects_get P t = Ok (k, r)) as Hg.
  { destruct (objects_get P t) as [x|[]]; congruence. }
  apply objects_get_Ok in Hg.
  assert ((k, r) ∈ objects_filter P t) as Hin by (rewrite Hg; left).
  apply elem_of_objects_filter in Hin. tauto.
Qed.

Lemma set_Carrinhos_same db : set_Carrinhos (Carrinhos_objects db) db = db.
Proof. by destruct db. Qed.

(** What add_to_cart can do to the database, whatever the request. *)
Lemma add_to_cart_effect request pk db :
  let t := Carrinhos_objects db in
  ∃ t', (add_to_cart request pk db).2 = set_Carrinhos t' db ∧
    (t' = t
     ∨ (∃ u q, is_Some (Epis_objects db !! pk) ∧ cart_lines u pk COMPRA db = [] ∧
               t' = <[new_pk t := mkCarrinhos u pk q COMPRA]> t)
     ∨ (∃ u k r q, cart_lines u pk COMPRA db = [(k, r)] ∧
                   t' = <[k := set_quantidade q r]> t)).
Proof.
  intros t. pose proof (set_Carrinhos_same db) as Hsame.
  unfold add_to_cart. run_view.
  destruct (user request) as [u|]; [|by exists t; auto].
  destruct (get_object_or_404 (pk_is pk) (Epis_objects db)) as [[pk' e]|] eqn:Eget;
    simpl; [|by exists t; auto].
  apply get_object_or_404_Ok in Eget as [He Hpk]. unfold pk_is in Hpk; simpl in Hpk.
  subst pk'.
  case_bool_decide; [|by exists t; auto].
  destruct (AddToCartForm_clean (POST_quantidade request)) as [q|];
    [|by exists t; auto].
  unfold Carrinhos_get_or_create, objects_get. fold (cart_lines u pk COMPRA db).
  destruct (cart_lines u pk COMPRA db) as [|[k r] [|y l]] eqn:E; simpl.
  - eexists. split; [done|]. right; left. by exists u, q.
  - case_bool_decide; simpl; [|by exists t; auto].
    eexists. split; [done|]. right; right. by exists u, k, r, (quantidade r + q)%Z.
  - by exists t; auto.
Qed.

Lemma update_cart_effect request item_id db :
  let t := Carrinhos_objects db in
  ∃ t', (update_cart request item_id db).2 = set_Carrinhos t' db ∧
    (t' = t ∨ ∃ k r q, t !! k = Some r ∧ t' = <[k := set_quantidade q r]> t).
Proof.
  intros t. pose proof (set_Carrinhos_same db) as Hsame.
  unfold update_cart. run_view.
  destruct (user request) as [u|]; [|by exists t; auto].
  destruct (get_object_or_404 _ (Carrinhos_objects db)) as [[k r]|] eqn:E; simpl;
    [|by exists t; auto].
  apply get_object_or_404_Ok in E as [Hk _].
  case_bool_decide; [|by exists t; auto].
  destruct (AddToCartForm_clean (POST_quantidade request)) as [q|];
    [|by exists t; auto].
  simpl. exists (<[k := set_quantidade q r]> t). split.
  - unfold related_epi. simpl. by destruct (Epis_objects db !! epi r).
  - right. by exists k, r, q.
Qed.

Lemma remove_from_cart_effect request item_id db :
  let t := Carrinhos_objects db in
  ∃ t', (remove_from_cart request item_id db).2 = set_Carrinhos t' db ∧
    (t' = t ∨ ∃ k, t' = delete k t).
Proof.
  intros t. pose proof (set_Carrinhos_same db) as Hsame.
  unfold remove_from_cart. run_view.
  destruct (user request) as [u|]; [|by exists t; auto].
  destruct (get_object_or_404 _ (Carrinhos_objects db)) as [[k r]|] eqn:E; simpl;
    [|by exists t; auto].
  exists (delete k t). split.
  - unfold related_epi, delete_row. simpl. by destruct (Epis_objects db !! epi r).
  - right. by exists k.
Qed.

Lemma one_per_triple_set_quantidade t k r q :
  one_per_triple t → t !! k = Some r →
  one_per_triple (<[k := set_quantidade q r]> t).
Proof.
  intros Hinv Hk k1 k2 r1 r2 H1 H2 Hu He Ht.
  assert (∀ k' r', <[k := set_quantidade q r]> t !! k' = Some r' →
            ∃ r0, t !! k' = Some r0 ∧ usuario r0 = usuario r' ∧
                  epi r0 = epi r' ∧ tipo r0 = tipo r') as Hold.
  { intros k' r'. destruct (decide (k = k')) as [<-|Hne].
    - rewrite lookup_insert_eq. intros [= <-]. by exists r.
    - rewrite lookup_insert_ne by done. intros ?. by exists r'. }
  apply Hold in H1 as (a1 & Ha1 & ? & ? & ?).
  apply Hold in H2 as (a2 & Ha2 & ? & ? & ?).
  eapply (Hinv k1 k2 a1 a2); congruence.
Qed.

Lemma one_per_triple_create t u i q k :
  one_per_triple t →
  (∀ k' r', t !! k' = Some r' → ¬ (usuario r' = u ∧ epi r' = i ∧ tipo r' = k)) →
  one_per_triple (<[new_pk t := mkCarrinhos u i q k]> t).
Proof.
  intros Hinv Hno k1 k2 r1 r2 H1 H2 Hu He Ht.
  pose proof (new_pk_fresh t) as Hfresh.
  destruct (decide (new_pk t = k1)) as [<-|Hne1];
    destruct (decide (new_pk t = k2)) as [<-|Hne2]; [done|..].
  - rewrite lookup_insert_eq in H1. rewrite lookup_insert_ne in H2 by done.
    injection H1 as <-. simpl in *. destruct (Hno k2 r2); auto.
  - rewrite lookup_insert_eq in H2. rewrite lookup_insert_ne in H1 by done.
    injection H2 as <-. simpl in *. destruct (Hno k1 r1); auto.
  - rewrite lookup_insert_ne in H1, H2 by done. eauto.
Qed.

Lemma one_per_triple_delete t k : one_per_triple t → one_per_triple (delete k t).
Proof.
  intros Hinv k1 k2 r1 r2 H1 H2.
  apply lookup_delete_Some in H1 as [_ H1]. apply lookup_delete_Some in H2 as [_ H2].
  eauto.
Qed.

Lemma reachable_one_per_triple db : reachable db → one_per_triple (Carrinhos_objects db).
Proof.
  induction 1 as [epis|db request pk _ IH|db request item_id _ IH|db request item_id _ IH].
  - intros k1 k2 r1 r2 H1. simpl in H1. by rewrite lookup_empty in H1.
  - destruct (add_to_cart_effect request pk db)
      as (t' & -> & [->|[(u & q & _ & Hnone & ->)|(u & k & r & q & Hone & ->)]]);
      simpl; [done|..].
    + apply one_per_triple_create; [done|]. intros k' r' Hk' HP.
      assert ((k', r') ∈ cart_lines u pk COMPRA db) as Hin
        by (by apply elem_of_objects_filter).
      rewrite Hnone in Hin. by apply not_elem_of_nil in Hin.
    + apply one_per_triple_set_quantidade; [done|].
      assert ((k, r) ∈ cart_lines u pk COMPRA db) as Hin by (rewrite Hone; left).
      apply elem_of_objects_filter in Hin. tauto.
  - destruct (update_cart_effect request item_id db)
      as (t' & -> & [->|(k & r & q & Hk & ->)]); simpl; [done|].
    by apply one_per_triple_set_quantidade.
  - destruct (remove_from_cart_effect request item_id db)
      as (t' & -> & [->|(k & ->)]); simpl; [done|].
    by apply one_per_triple_delete.
Qed.

Lemma reachable_compra_in_catalog db : reachable db → compra_in_catalog db.
Proof.
  induction 1 as [epis|db request pk _ IH|db request item_id _ IH|db request item_id _ IH].
  - intros k r Hk. simpl in Hk. by rewrite lookup_empty in Hk.
  - destruct (add_to_cart_effect request pk db)
      as (t' & -> & [->|[(u & q & He & _ & ->)|(u & k & r & q & Hone & ->)]]);
      intros k' r'; simpl; [apply IH|..].
    + destruct (decide (new_pk (Carrinhos_objects db) = k')) as [<-|Hne].
      * rewrite lookup_insert_eq. by intros [= <-].
      * rewrite lookup_insert_ne by done. apply IH.
    + assert ((k, r) ∈ cart_lines u pk COMPRA db) as Hin by (rewrite Hone; left).
      apply elem_of_objects_filter in Hin as [_ Hk].
      destruct (decide (k = k')) as [<-|Hne].
      * rewrite lookup_insert_eq. intros [= <-]. simpl. by apply (IH k r).
      * rewrite lookup_insert_ne by done. apply IH.
  - destruct (update_cart_effect request item_id db)
      as (t' & -> & [->|(k & r & q & Hk & ->)]); intros k' r'; simpl; [apply IH|].
    destruct (decide (k = k')) as [<-|Hne].
    + rewrite lookup_insert_eq. intros [= <-]. simpl. by apply (IH k r).
    + rewrite lookup_insert_ne by done. apply IH.
  - destruct (remove_from_cart_effect request item_id db)
      as (t' & -> & [->|(k & ->)]); intros k' r'; simpl; [apply IH|].
    intros [_ Hk']%lookup_delete_Some. by apply (IH k' r').
Qed.

(** C3. In every store reachable from an empty cart table by add_to_cart,
    update_cart and remove_from_cart requests (valid or not, by any users,
    in any order), each (user, item, kind) triple has at most one cart
    line. *)
Theorem reachable_at_most_one_line db u i k :
  reachable db → length (cart_lines u i k db) ≤ 1.
Proof.
  intros Hreach. apply objects_filter_length_le_1.
  intros k1 k2 r1 r2 H1 H2 (Hu1 & He1 & Ht1) (Hu2 & He2 & Ht2).
  unfold usuario_is, epi_is, tipo_is in *. simpl in *.
  eapply (reachable_one_per_triple db Hreach k1 k2 r1 r2); congruence.
Qed.

(** ** Cart totals *)

Lemma sum_from_total lines : ∀ acc db,
  Forall (λ kr, is_Some (Epis_objects db !! epi kr.2)) lines →
  sum_from acc lines db = (Ok (acc + total_of (Epis_objects db) lines)%Z, db).
Proof.
  induction lines as [|[k r] lines IH]; intros acc db Hall; simpl.
  - unfold mret, View_ret. f_equal. f_equal. lia.
  - apply Forall_cons in Hall as [[e He] Hall]. simpl in He.
    unfold mbind, View_bind, related_epi. simpl. rewrite He.
    rewrite IH by done. unfold line_value. rewrite He. f_equal. f_equal. lia.
Qed.

Lemma fk_ok_filter db (P : nat * Carrinhos → Prop) `{∀ x, Decision (P x)} :
  fk_ok db →
  Forall (λ kr, is_Some (Epis_objects db !! epi kr.2))
    (objects_filter P (Carrinhos_objects db)).
Proof.
  intros Hfk. apply Forall_forall. intros [k r] Hin.
  apply elem_of_objects_filter in Hin as [_ Hk]. by eapply Hfk.
Qed.

(** Splitting a filtered sum by a second condition. *)
Lemma total_of_filter_split epis (P Q : nat * Carrinhos → Prop)
    `{∀ x, Decision (P x)} `{∀ x, Decision (Q x)} (l : list (nat * Carrinhos)) :
  total_of epis (filter P l) =
    (total_of epis (filter (λ x, P x ∧ Q x) l)
     + total_of epis (filter (λ x, P x ∧ ¬ Q x) l))%Z.
Proof.
  induction l as [|x l IH]; [done|].
  rewrite !filter_cons.
  destruct (decide (P x)) as [HP|HP]; destruct (decide (Q x)) as [HQ|HQ];
    repeat (destruct (decide _) as [?|?]; try tauto); simpl; lia.
Qed.

Lemma total_value_split db u :
  total_value db u =
    (total_of (Epis_objects db) (compra_lines db u)
     + total_of (Epis_objects db) (other_lines db u))%Z.
Proof.
  unfold total_value, compra_lines, other_lines, objects_filter.
  apply (total_of_filter_split _ (usuario_is u) (tipo_is COMPRA)).
Qed.

Lemma view_cart_valor_total_ok db u :
  fk_ok db →
  view_cart_valor_total u db = (Ok (total_of (Epis_objects db) (compra_lines db u)), db).
Proof.
  intros Hfk. unfold view_cart_valor_total, view_cart_itens. run_view.
  rewrite sum_from_total by (by apply fk_ok_filter). done.
Qed.

Lemma index_valor_total_ok db u :
  fk_ok db → index_valor_total u db = (Ok (total_value db u), db).
Proof.
  intros Hfk. unfold index_valor_total, index_itens. run_view.
  rewrite sum_from_total by (by apply fk_ok_filter). done.
Qed.

(** A sum of positive line values is positive. *)
Lemma total_of_pos epis lines :
  lines ≠ [] →
  Forall (λ kr, 0 < line_value epis kr.2)%Z lines →
  (0 < total_of epis lines)%Z.
Proof.
  intros Hne Hall. induction Hall as [|x l Hx Hall IH]; [done|].
  simpl. destruct l as [|y l]; [simpl; lia|].
  assert (0 < total_of epis (y :: l))%Z by (by apply IH). lia.
Qed.

(** C2, as stated, fails: with a line of another kind in the store,
    view_cart lists nothing and totals 0 while the sum over all of the
    user's lines is 5000. *)
Lemma view_cart_total_not_all_lines :
  (view_cart (get 7) db_other).1 = Ok (render "epi_shops/carrinho.html" (ctx_carrinho [] 0))
  ∧ total_value db_other 7 = 5000%Z.
Proof. by vm_compute. Qed.

(** C2, amended. In a store with referential integrity, view_cart lists
    the user's purchase-request lines and its total is the sum over those
    lines of the catalog's price at the time of the request times the
    quantity; the database is left as found.  That total is the sum over all
    of the user's lines whenever the user has no line of another kind, and
    so in every store reachable by the cart views from an empty cart
    table. *)
Theorem view_cart_total_current_prices request u db :
  user request = Some u → fk_ok db →
  view_cart request db =
    (Ok (render "epi_shops/carrinho.html"
           (ctx_carrinho (compra_lines db u)
              (total_of (Epis_objects db) (compra_lines db u)))), db)
  ∧ (other_lines db u = [] →
     total_of (Epis_objects db) (compra_lines db u) = total_value db u)
  ∧ (reachable db →
     total_of (Epis_objects db) (compra_lines db u) = total_value db u).
Proof.
  intros Hu Hfk.
  assert (other_lines db u = [] →
          total_of (Epis_objects db) (compra_lines db u) = total_value db u) as Hsame.
  { intros Hnone. rewrite total_value_split, Hnone. simpl. lia. }
  split_and!; [|done|].
  - pose proof (view_cart_valor_total_ok db u Hfk) as Hv.
    unfold view_cart_valor_total, view_cart_itens in Hv.
    unfold view_cart, view_cart_itens. revert Hv. run_view. rewrite Hu.
    fold (compra_lines db u).
    destruct (sum_from 0 (compra_lines db u) db) as [[z|e] db']; by intros [= -> ->].
  - intros Hreach. apply Hsame.
    pose proof (reachable_compra_in_catalog db Hreach) as Hinv.
    apply objects_filter_none. intros k r Hk [_ Hnot].
    apply Hnot. unfold tipo_is. simpl. by apply (Hinv k r).
Qed.

(** C9, as stated, fails: a line of another kind for an item whose price is
    0 leaves the two totals equal. *)
Lemma totals_equal_despite_other_kind :
  other_lines db_other_free 7 = [(1%nat, mkCarrinhos 7 2 1 emprestimo)]
  ∧ (index_valor_total 7 db_other_free).1 = Ok 0%Z
  ∧ (view_cart_valor_total 7 db_other_free).1 = Ok 0%Z.
Proof. by vm_compute. Qed.

(** C9, amended. The listing of index (lines 31-32) ranges over all of the
    user's cart lines, that of view_cart (lines 160-161) over the
    purchase-request lines only; in a store with referential integrity the
    first total is the second plus the value of the user's lines of other
    kinds, so the two differ exactly when that value is not 0, and they do
    differ when the user has such a line and every such line has a positive
    value. *)
Theorem index_total_vs_view_cart_total u db :
  fk_ok db →
  let others := total_of (Epis_objects db) (other_lines db u) in
  ∃ a b, index_valor_total u db = (Ok a, db)
       ∧ view_cart_valor_total u db = (Ok b, db)
       ∧ a = (b + others)%Z
       ∧ (a ≠ b ↔ others ≠ 0%Z)
       ∧ (other_lines db u ≠ [] →
          Forall (λ kr, 0 < line_value (Epis_objects db) kr.2)%Z (other_lines db u) →
          a ≠ b).
Proof.
  intros Hfk others.
  exists (total_value db u), (total_of (Epis_objects db) (compra_lines db u)).
  pose proof (total_value_split db u) as Hsplit. fold others in Hsplit.
  split_and!.
  - by apply index_valor_total_ok.
  - by apply view_cart_valor_total_ok.
  - done.
  - lia.
  - intros Hne Hpos. pose proof (total_of_pos _ _ Hne Hpos). fold others in H. lia.
Qed.

(** ** Search *)




Lemma nat_of_ascii_inj a b : nat_of_ascii a = nat_of_ascii b → a = b.
Proof.
  intros Hab. rewrite <- (ascii_nat_embedding a), <- (ascii_nat_embedding b).
  by rewrite Hab.
Qed.

Lemma nat_of_ascii_lower c :
  nat_of_ascii (ascii_lower c)
  = if decide (is_capital c) then nat_of_ascii c + 32 else nat_of_ascii c.
Proof.
  unfold ascii_lower, is_capital. pose proof (nat_ascii_bounded c) as Hc.
  destruct (Nat.leb_spec 65 (nat_of_ascii c)), (Nat.leb_spec (nat_of_ascii c) 90);
    cbn [andb]; destruct (decide _) as [?|?]; try lia; [|done..].
  apply nat_ascii_embedding. lia.
Qed.

Lemma same_letter_lower a b : same_letter a b ↔ ascii_lower a = ascii_lower b.
Proof.
  unfold same_letter. split.
  - intros Hab. apply nat_of_ascii_inj. rewrite !nat_of_ascii_lower.
    unfold is_capital in *.
    destruct Hab as [->|[[Ha Hb]|[Hb Ha]]]; [done|..];
      repeat destruct (decide _); lia.
  - intros Hab. apply (f_equal nat_of_ascii) in Hab. rewrite !nat_of_ascii_lower in Hab.
    unfold is_capital in *.
    repeat destruct (decide _);
      first [left; apply nat_of_ascii_inj; lia | right; left; split; lia
            | right; right; split; lia].
Qed.

Lemma same_text_lower s t : same_text s t ↔ lower s = lower t.
Proof.
  split.
  - induction 1 as [|a b s t Hab _ IH]; [done|].
    apply same_letter_lower in Hab. simpl. by rewrite Hab, IH.
  - revert t. induction s as [|a s IH]; intros [|b t] Hst; try done; [constructor|].
    injection Hst as Hab Hst. constructor; [by apply same_letter_lower|by apply IH].
Qed.






(** ** Pagination *)

Lemma drop_take_page {A} (l : list A) (bottom per_page : Z) :
  (0 ≤ bottom)%Z → (0 ≤ per_page)%Z →
  let cnt := Z.of_nat (length l) in
  let top := (bottom + per_page)%Z in
  drop_take bottom (if bool_decide (top >= cnt)%Z then cnt else top) l
  = take (Z.to_nat per_page) (drop (Z.to_nat bottom) l).
Proof.
  intros Hb Hp cnt top. unfold drop_take. case_bool_decide as Htop.
  - rewrite !take_ge; [done|rewrite length_drop; lia..].
  - f_equal. lia.
Qed.

Lemma page_slice (items : list (nat * Epis)) per_page n p :
  (0 ≤ per_page)%Z →
  page items per_page n = Some p →
  (1 ≤ n ≤ num_pages items per_page)%Z ∧ number p = n ∧
  object_list p = take (Z.to_nat per_page) (drop (Z.to_nat ((n - 1) * per_page)) items).
Proof.
  intros Hpp. unfold page, validate_number.
  case_bool_decide as H1; [done|]. case_bool_decide as H2; [done|]. simpl.
  intros [= <-]. split_and!.
  - lia.
  - lia.
  - done.
  - apply (drop_take_page items ((n - 1) * per_page) per_page); nia.
Qed.

Lemma page_valid (items : list (nat * Epis)) per_page n :
  (1 ≤ n ≤ num_pages items per_page)%Z → is_Some (page items per_page n).
Proof.
  intros Hn. unfold page, validate_number.
  rewrite !bool_decide_eq_false_2 by lia. by eexists.
Qed.

(** On a GET by a logged-in user the listing is what the paginator makes
    of the query set. *)
Lemma EpiList_get request u db :
  user request = Some u → method request = "GET" →
  EpiList request db
  = (match paginate_queryset request (get_queryset request (Epis_objects db))
             paginate_by with
     | Ok p => Ok (render "epi_shops/epi_list.html" (ctx_epi_list p))
     | Raise e => Raise e
     end, db).
Proof.
  intros Hu Hm. unfold EpiList, dispatch_get. run_view. rewrite Hu, Hm. simpl.
  by destruct (paginate_queryset _ _ _).
Qed.

(** C8. On a GET by a logged-in user for page n of the listing, n from 1
    to the number of pages (no page parameter asks for page 1), EpiList
    answers with the page numbered n, whose rows are the ten consecutive
    rows of the matching query set that start at row 10 * (n - 1): at most
    10 rows, and exactly 10 when at least 10 matching rows remain from that
    row on. *)
Theorem EpiList_page_size_ten request u db n :
  user request = Some u → method request = "GET" →
  GET_page request = Some (PageInt n) ∨ (GET_page request = None ∧ n = 1%Z) →
  let matching := get_queryset request (Epis_objects db) in
  let start := 10 * (Z.to_nat n - 1) in
  (1 ≤ n ≤ num_pages matching paginate_by)%Z →
  ∃ p, EpiList request db
       = (Ok (render "epi_shops/epi_list.html" (ctx_epi_list p)), db)
     ∧ number p = n
     ∧ object_list p = take 10 (drop start matching)
     ∧ length (object_list p) ≤ 10
     ∧ (start + 10 ≤ length matching → length (object_list p) = 10).
Proof.
  intros Hu Hm Hpage matching start Hn.
  rewrite (EpiList_get request u db Hu Hm). fold matching.
  assert (paginate_queryset request matching paginate_by
          = match page matching paginate_by n with
            | Some p => Ok p
            | None => Raise Http404
            end) as ->.
  { unfold paginate_queryset. by destruct Hpage as [->|[-> ->]]. }
  destruct (page_valid matching paginate_by n Hn) as [p Hp]. rewrite Hp.
  apply page_slice in Hp as (_ & Hnum & Hlist); [|done].
  assert (Z.to_nat ((n - 1) * paginate_by) = start) as Hstart
    by (unfold paginate_by, start; lia).
  rewrite Hstart in Hlist. change (Z.to_nat paginate_by) with 10 in Hlist.
  exists p. split_and!; [done..| |]; rewrite Hlist, length_take, length_drop; lia.
Qed.

(** ** Name resolution in [index] *)

Lemma load_global_bound name db :
  name ∈ module_globals ++ builtins → load_global name db = (Ok tt, db).
Proof. intros Hin. unfold load_global. by rewrite bool_decide_eq_true_2. Qed.

Lemma Paginator_unbound : "Paginator" ∉ module_globals ++ builtins.
Proof. apply (bool_decide_unpack _). by vm_compute. Qed.

(** C10. For every authenticated request and every database, index raises
    NameError for the name Paginator and leaves the database untouched; it
    never returns a response. *)
Theorem index_raises_NameError request u db :
  user request = Some u →
  index request db = (Raise (NameError "Paginator"), db)
  ∧ ∀ response, (index request db).1 ≠ Ok response.
Proof.
  intros Hu.
  assert (index request db = (Raise (NameError "Paginator"), db)) as ->; [|done].
  assert (load_global "Epis" db = (Ok tt, db)) as HEpis
    by (apply load_global_bound, (bool_decide_unpack _); by vm_compute).
  assert (load_global "Q" db = (Ok tt, db)) as HQ
    by (apply load_global_bound, (bool_decide_unpack _); by vm_compute).
  assert (load_global "Paginator" db = (Raise (NameError "Paginator"), db)) as HP.
  { unfold load_global. rewrite bool_decide_eq_false_2; [done|apply Paginator_unbound]. }
  unfold index, login_required. rewrite Hu.
  unfold mbind, View_bind.
  destruct (truthy (GET_search request)) as [q|];
    rewrite HEpis, ?HQ; unfold read; by rewrite HP.
Qed.

(** ** The statements at work on the examples *)


Lemma view_cart_total_current_prices_witness :
  view_cart (get 7) after2 =
    (Ok (render "epi_shops/carrinho.html"
           (ctx_carrinho (compra_lines after2 7)
              (total_of (Epis_objects after2) (compra_lines after2 7)))), after2)
  ∧ (other_lines after2 7 = [] →
     total_of (Epis_objects after2) (compra_lines after2 7) = total_value after2 7)
  ∧ (reachable after2 →
     total_of (Epis_objects after2) (compra_lines after2 7) = total_value after2 7).
Proof.
  apply (view_cart_total_current_prices (get 7) 7 after2).
  - reflexivity.
  - apply (bool_decide_unpack _). vm_compute. exact I.
Defined.

Lemma reachable_at_most_one_line_witness : length (cart_lines 7 1 COMPRA after2) ≤ 1.
Proof.
  apply (reachable_at_most_one_line after2 7 1 COMPRA).
  unfold after2. apply reach_add, reach_add. apply (reach_empty catalog0).
Defined.



Lemma update_nonpositive_rejected_witness :
  let r := mkCarrinhos 7 1 5 COMPRA in
  update_cart (post 7 0) 1 after2 =
    (Ok (render "epi_shops/update_cart.html" (ctx_update_cart FormInvalid (1, r))), after2)
  ∧ Carrinhos_objects (update_cart (post 7 0) 1 after2).2 !! 1 = Some r.
Proof.
  apply (update_nonpositive_rejected (post 7 0) 7 0 1 (mkCarrinhos 7 1 5 COMPRA) after2).
  - repeat split.
  - lia.
  - vm_compute. reflexivity.
  - reflexivity.
Defined.

Lemma remove_foreign_line_404_witness :
  remove_from_cart (get 8) 1 after2 = (Raise Http404, after2)
  ∧ Carrinhos_objects (remove_from_cart (get 8) 1 after2).2 !! 1
    = Carrinhos_objects after2 !! 1.
Proof.
  apply (remove_foreign_line_404 (get 8) 8 1 after2).
  - reflexivity.
  - intros r Hr. vm_compute in Hr. injection Hr as <-. simpl. lia.
Defined.

Lemma EpiList_page_size_ten_witness :
  let matching := get_queryset (get 7) (Epis_objects db12) in
  ∃ p, EpiList (get 7) db12
       = (Ok (render "epi_shops/epi_list.html" (ctx_epi_list p)), db12)
     ∧ number p = 1%Z
     ∧ object_list p = take 10 (drop (10 * (Z.to_nat 1 - 1)) matching)
     ∧ length (object_list p) ≤ 10
     ∧ (10 * (Z.to_nat 1 - 1) + 10 ≤ length matching → length (object_list p) = 10).
Proof.
  apply (EpiList_page_size_ten (get 7) 7 db12 1).
  - reflexivity.
  - reflexivity.
  - right. split; reflexivity.
  - vm_compute. split; discriminate.
Defined.

Lemma index_total_vs_view_cart_total_witness :
  let others := total_of (Epis_objects db_other) (other_lines db_other 7) in
  ∃ a b, index_valor_total 7 db_other = (Ok a, db_other)
       ∧ view_cart_valor_total 7 db_other = (Ok b, db_other)
       ∧ a = (b + others)%Z
       ∧ (a ≠ b ↔ others ≠ 0%Z)
       ∧ (other_lines db_other 7 ≠ [] →
          Forall (λ kr, 0 < line_value (Epis_objects db_other) kr.2)%Z
            (other_lines db_other 7) →
          a ≠ b).
Proof.
  apply (index_total_vs_view_cart_total 7 db_other).
  apply (bool_decide_unpack _). vm_compute. exact I.
Defined.

Lemma index_raises_NameError_witness :
  index (get 7) db0 = (Raise (NameError "Paginator"), db0)
  ∧ ∀ response, (index (get 7) db0).1 ≠ Ok response.
Proof.
  apply (index_raises_NameError (get 7) 7 db0). reflexivity.
Defined.

(** The helmet example: 2 and then 3 helmets at 25.00 make one line of 5
    and a total of 125.00; after the price goes to 30.00 the same cart
    totals 150.00. *)
Example helmet_cart :
  objects_all (Carrinhos_objects after2) = [(1, mkCarrinhos 7 1 5 COMPRA)]
  ∧ (view_cart_valor_total 7 after2).1 = Ok 12500%Z
  ∧ (view_cart_valor_total 7
       (mkDB (<[1 := mkEpis "Helmet" "Hard hat, yellow" 3000 40]> catalog0)
          (Carrinhos_objects after2))).1 = Ok 15000%Z.
Proof. by vm_compute. Qed.

(** A search finds the helmet whatever the case of the query, by name or by
    description, and an empty query lists everything. *)
Example search_examples :
  get_queryset search_helm catalog0 = [(1, helmet)]
  ∧ get_queryset (mkRequest (Some 7) "GET" (Some "yellow") None None) catalog0
    = [(1, helmet)]
  ∧ get_queryset (mkRequest (Some 7) "GET" (Some "visor") None None) catalog0 = []
  ∧ get_queryset (mkRequest (Some 7) "GET" (Some EmptyString) None None) catalog0
    = objects_all catalog0.
Proof. by vm_compute. Qed.

(** Another user cannot remove, update or see that line. *)
Example other_user_cart :
  (remove_from_cart (get 8) 1 after2) = (Raise Http404, after2)
  ∧ (update_cart (post 8 1) 1 after2) = (Raise Http404, after2)
  ∧ (view_cart (get 8) after2).1 = Ok (render "epi_shops/carrinho.html" (ctx_carrinho [] 0)).
Proof. by vm_compute. Qed.

(** The listing of twelve boots: ten on the first page, two on the second,
    no third page. *)
Example twelve_boots :
  length (object_list first_page_of_12) = 10
  ∧ (∃ p, (EpiList (mkRequest (Some 7) "GET" None (Some (PageInt 2)) None) db12).1
          = Ok (render "epi_shops/epi_list.html" (ctx_epi_list p))
          ∧ length (object_list p) = 2)
  ∧ (EpiList (mkRequest (Some 7) "GET" None (Some (PageInt 3)) None) db12).1
    = Raise Http404.
Proof. split_and!; [by vm_compute|eexists; by vm_compute|by vm_compute]. Qed.

(** * Further properties of the views *)

(** ** What a request of a given user can do to the cart table *)

Lemma get_pk_missing {A} (t : gmap nat A) k :
  t !! k = None → get_object_or_404 (pk_is k) t = Raise Http404.
Proof.
  intros Hk. unfold get_object_or_404, objects_get.
  rewrite objects_filter_none; [done|].
  intros k' r' Hk' Hpk. unfold pk_is in Hpk; simpl in Hpk. congruence.
Qed.

Lemma add_to_cart_cases request u pk db :
  user request = Some u →
  let t := Carrinhos_objects db in
  let db' := (add_to_cart request pk db).2 in
  db' = db
  ∨ (∃ q, cart_lines u pk COMPRA db = [] ∧
          db' = set_Carrinhos (<[new_pk t := mkCarrinhos u pk q COMPRA]> t) db)
  ∨ (∃ k r q, cart_lines u pk COMPRA db = [(k, r)] ∧
              db' = set_Carrinhos (<[k := set_quantidade q r]> t) db).
Proof.
  intros Hu t. unfold add_to_cart. run_view. rewrite Hu.
  destruct (get_object_or_404 (pk_is pk) (Epis_objects db)) as [[pk' e]|] eqn:Eget;
    simpl; [|by left].
  apply get_object_or_404_Ok in Eget as [He Hpk]. unfold pk_is in Hpk; simpl in Hpk.
  subst pk'.
  case_bool_decide; [|by left].
  destruct (AddToCartForm_clean (POST_quantidade request)) as [q|]; [|by left].
  unfold Carrinhos_get_or_create, objects_get. fold (cart_lines u pk COMPRA db).
  destruct (cart_lines u pk COMPRA db) as [|[k r] [|y l]] eqn:E; simpl.
  - right; left. by exists q.
  - case_bool_decide; simpl; [|by left].
    right; right. by exists k, r, (quantidade r + q)%Z.
  - by left.
Qed.

Lemma update_cart_cases request u item_id db :
  user request = Some u →
  let t := Carrinhos_objects db in
  let db' := (update_cart request item_id db).2 in
  db' = db
  ∨ (∃ r q, t !! item_id = Some r ∧ usuario r = u ∧
            db' = set_Carrinhos (<[item_id := set_quantidade q r]> t) db).
Proof.
  intros Hu t. unfold update_cart. run_view. rewrite Hu.
  destruct (get_object_or_404 _ (Carrinhos_objects db)) as [[k r]|] eqn:E; simpl;
    [|by left].
  apply get_object_or_404_Ok in E as [Hk [Hpk Hr]].
  unfold pk_is, usuario_is in Hpk, Hr; simpl in Hpk, Hr. subst k.
  case_bool_decide; [|by left].
  destruct (AddToCartForm_clean (POST_quantidade request)) as [q|]; [|by left].
  simpl. right. exists r, q. split_and!; [done..|].
  unfold related_epi. simpl. by destruct (Epis_objects db !! epi r).
Qed.

Lemma remove_from_cart_cases request u item_id db :
  user request = Some u →
  let t := Carrinhos_objects db in
  let db' := (remove_from_cart request item_id db).2 in
  db' = db
  ∨ (∃ r, t !! item_id = Some r ∧ usuario r = u ∧
          db' = set_Carrinhos (delete item_id t) db).
Proof.
  intros Hu t. unfold remove_from_cart. run_view. rewrite Hu.
  destruct (get_object_or_404 _ (Carrinhos_objects db)) as [[k r]|] eqn:E; simpl;
    [|by left].
  apply get_object_or_404_Ok in E as [Hk [Hpk Hr]].
  unfold pk_is, usuario_is in Hpk, Hr; simpl in Hpk, Hr. subst k.
  right. exists r. split_and!; [done..|].
  unfold related_epi, delete_row. simpl. by destruct (Epis_objects db !! epi r).
Qed.

(** Writing a row of user [u] under a key that was free or held a row of
    [u] neither shows nor hides a row of anybody else. *)
Lemma lookup_insert_own (t : gmap nat Carrinhos) k0 r0 u k r :
  usuario r0 = u →
  (∀ r1, t !! k0 = Some r1 → usuario r1 = u) →
  usuario r ≠ u →
  <[k0 := r0]> t !! k = Some r ↔ t !! k = Some r.
Proof.
  intros Hr0 Hold Hr. destruct (decide (k0 = k)) as [<-|Hne].
  - rewrite lookup_insert_eq. split.
    + intros [= <-]. done.
    + intros Hk. by apply Hold in Hk.
  - by rewrite lookup_insert_ne.
Qed.

Lemma lookup_delete_own (t : gmap nat Carrinhos) k0 r0 u k r :
  t !! k0 = Some r0 → usuario r0 = u → usuario r ≠ u →
  delete k0 t !! k = Some r ↔ t !! k = Some r.
Proof.
  intros Hk0 Hr0 Hr. rewrite lookup_delete_Some. split; [tauto|].
  intros Hk. split; [|done]. intros <-. congruence.
Qed.

(** ** Ownership and framing *)

(** X1. Whatever a logged-in user asks of add_to_cart, update_cart or
    remove_from_cart, the cart lines of every other user are left alone:
    a row of another user is in the table afterwards exactly when it was
    there before, under the same key. *)
Theorem other_users_lines_untouched request u db k r :
  user request = Some u → usuario r ≠ u →
  (∀ pk, Carrinhos_objects (add_to_cart request pk db).2 !! k = Some r
         ↔ Carrinhos_objects db !! k = Some r)
  ∧ (∀ item_id, Carrinhos_objects (update_cart request item_id db).2 !! k = Some r
                ↔ Carrinhos_objects db !! k = Some r)
  ∧ (∀ item_id, Carrinhos_objects (remove_from_cart request item_id db).2 !! k = Some r
                ↔ Carrinhos_objects db !! k = Some r).
Proof.
  intros Hu Hr. split_and!.
  - intros pk.
    destruct (add_to_cart_cases request u pk db Hu)
      as [->|[(q & Hnone & ->)|(k0 & r0 & q & Hone & ->)]]; [done|..]; simpl.
    + apply (lookup_insert_own _ _ _ u); [done| |done].
      intros r1. by rewrite new_pk_fresh.
    + assert ((k0, r0) ∈ cart_lines u pk COMPRA db) as Hin by (rewrite Hone; left).
      apply elem_of_objects_filter in Hin as [(Hu0 & _ & _) Hk0].
      unfold usuario_is in Hu0; simpl in Hu0.
      apply (lookup_insert_own _ _ _ u); [done| |done].
      intros r1 Hr1. congruence.
  - intros item_id.
    destruct (update_cart_cases request u item_id db Hu) as [->|(r0 & q & Hk0 & Hu0 & ->)];
      [done|]; simpl.
    apply (lookup_insert_own _ _ _ u); [done| |done].
    intros r1 Hr1. congruence.
  - intros item_id.
    destruct (remove_from_cart_cases request u item_id db Hu) as [->|(r0 & Hk0 & Hu0 & ->)];
      [done|]; simpl.
    by apply (lookup_delete_own _ _ r0 u).
Qed.

(** X2. add_to_cart never removes a cart line, and the only line it can
    change is the requesting user's purchase-request line for the item in
    the URL: every other line is afterwards what it was. *)
Theorem add_to_cart_frame request u pk db k r :
  user request = Some u →
  Carrinhos_objects db !! k = Some r →
  is_Some (Carrinhos_objects (add_to_cart request pk db).2 !! k)
  ∧ (¬ (usuario r = u ∧ epi r = pk ∧ tipo r = COMPRA) →
     Carrinhos_objects (add_to_cart request pk db).2 !! k = Some r).
Proof.
  intros Hu Hk.
  destruct (add_to_cart_cases request u pk db Hu)
    as [->|[(q & Hnone & ->)|(k0 & r0 & q & Hone & ->)]]; simpl.
  - split; [by eexists|done].
  - assert (new_pk (Carrinhos_objects db) ≠ k) as Hne.
    { intros <-. by rewrite new_pk_fresh in Hk. }
    rewrite lookup_insert_ne by done. split; [by eexists|done].
  - assert ((k0, r0) ∈ cart_lines u pk COMPRA db) as Hin by (rewrite Hone; left).
    apply elem_of_objects_filter in Hin as [(Hu0 & He0 & Ht0) Hk0].
    unfold usuario_is, epi_is, tipo_is in *. simpl in *.
    destruct (decide (k0 = k)) as [<-|Hne].
    + rewrite lookup_insert_eq. split; [by eexists|].
      intros Hnot. destruct Hnot. split_and!; congruence.
    + rewrite lookup_insert_ne by done. split; [by eexists|done].
Qed.

(** ** Errors and requests that write nothing *)

(** X3. For an item that is not in the catalog add_to_cart raises Http404,
    whatever the method and the posted data, and writes nothing. *)
Theorem add_to_cart_unknown_item_404 request u pk db :
  user request = Some u →
  Epis_objects db !! pk = None →
  add_to_cart request pk db = (Raise Http404, db).
Proof.
  intros Hu Hpk. unfold add_to_cart. run_view. rewrite Hu.
  by rewrite (get_pk_missing _ _ Hpk).
Qed.

(** X4. add_to_cart and update_cart write only on a POST whose form is
    valid: on any other method, and on a POST whose quantity the form
    rejects, the database is left as it was. *)
Theorem cart_writes_need_valid_post request db :
  method request ≠ "POST" ∨ AddToCartForm_clean (POST_quantidade request) = None →
  (∀ pk, (add_to_cart request pk db).2 = db)
  ∧ (∀ item_id, (update_cart request item_id db).2 = db).
Proof.
  intros Hno. split.
  - intros pk. unfold add_to_cart. run_view.
    destruct (user request) as [u|]; [|done].
    destruct (get_object_or_404 (pk_is pk) (Epis_objects db)) as [e|]; simpl; [|done].
    case_bool_decide; [|done].
    destruct Hno as [Hm | ->]; done.
  - intros item_id. unfold update_cart. run_view.
    destruct (user request) as [u|]; [|done].
    destruct (get_object_or_404 _ (Carrinhos_objects db)) as [item|]; simpl; [|done].
    case_bool_decide; [|done].
    destruct Hno as [Hm | ->]; done.
Qed.

(** X5. If the table holds two or more purchase-request lines of the user
    for the item, a valid add raises MultipleObjectsReturned and writes
    nothing: none of the lines is incremented, no new line is made. *)
Theorem add_to_cart_duplicate_lines_raise request u q pk e db :
  posts request u q → (1 ≤ q)%Z →
  Epis_objects db !! pk = Some e →
  2 ≤ length (cart_lines u pk COMPRA db) →
  add_to_cart request pk db = (Raise MultipleObjectsReturned, db).
Proof.
  intros (Hu & Hm & Hq) Hpos He Hlen.
  unfold add_to_cart. run_view. rewrite Hu, Hm, Hq, (clean_valid _ Hpos).
  rewrite (get_pk_found _ _ _ He). simpl.
  unfold Carrinhos_get_or_create, objects_get. fold (cart_lines u pk COMPRA db).
  destruct (cart_lines u pk COMPRA db) as [|x [|y l]]; simpl in *; [lia..|done].
Qed.

(** X6. update_cart on a key that names no cart line, or a line of another
    user, raises Http404 and writes nothing, whatever the method and the
    posted quantity. *)
Theorem update_cart_foreign_line_404 request u item_id db :
  user request = Some u →
  (∀ r, Carrinhos_objects db !! item_id = Some r → usuario r ≠ u) →
  update_cart request item_id db = (Raise Http404, db).
Proof.
  intros Hu Hforeign. unfold update_cart. run_view. rewrite Hu.
  by rewrite (get_by_pk_missing (usuario_is u) _ _ Hforeign).
Qed.

(** ** How the cart operations compose *)

Lemma set_Carrinhos_twice t1 t2 db :
  set_Carrinhos t2 (set_Carrinhos t1 db) = set_Carrinhos t2 db.
Proof. done. Qed.

Lemma cart_lines_nil_inv u i k db :
  cart_lines u i k db = [] →
  ∀ k' r', Carrinhos_objects db !! k' = Some r' →
    ¬ (usuario_is u (k', r') ∧ epi_is i (k', r') ∧ tipo_is k (k', r')).
Proof.
  intros Hnone k' r' Hk' HP.
  assert ((k', r') ∈ cart_lines u i k db) as Hin by (by apply elem_of_objects_filter).
  rewrite Hnone in Hin. by apply not_elem_of_nil in Hin.
Qed.

Lemma cart_lines_one_inv u i k db k0 r0 :
  cart_lines u i k db = [(k0, r0)] →
  Carrinhos_objects db !! k0 = Some r0
  ∧ (usuario r0 = u ∧ epi r0 = i ∧ tipo r0 = k)
  ∧ ∀ k' r', Carrinhos_objects db !! k' = Some r' →
      usuario_is u (k', r') ∧ epi_is i (k', r') ∧ tipo_is k (k', r') → k' = k0.
Proof.
  intros Hone.
  assert ((k0, r0) ∈ cart_lines u i k db) as Hin by (rewrite Hone; left).
  apply elem_of_objects_filter in Hin as [HP Hk0]. split_and!; [done|apply HP..|].
  intros k' r' Hk' HP'.
  assert ((k', r') ∈ cart_lines u i k db) as Hin' by (by apply elem_of_objects_filter).
  rewrite Hone in Hin'. apply list_elem_of_singleton in Hin'. congruence.
Qed.

Lemma cart_lines_after_create u i q db :
  cart_lines u i COMPRA db = [] →
  let t := Carrinhos_objects db in
  cart_lines u i COMPRA (set_Carrinhos (<[new_pk t := mkCarrinhos u i q COMPRA]> t) db)
  = [(new_pk t, mkCarrinhos u i q COMPRA)].
Proof.
  intros Hnone t. unfold cart_lines. simpl. apply objects_filter_one.
  - apply lookup_insert_eq.
  - by repeat split.
  - intros k' r' Hk' HP. destruct (decide (k' = new_pk t)) as [|Hne]; [done|].
    rewrite lookup_insert_ne in Hk' by done.
    by destruct (cart_lines_nil_inv _ _ _ _ Hnone k' r').
Qed.

Lemma cart_lines_after_set u i db k0 r0 q :
  cart_lines u i COMPRA db = [(k0, r0)] →
  cart_lines u i COMPRA
    (set_Carrinhos (<[k0 := set_quantidade q r0]> (Carrinhos_objects db)) db)
  = [(k0, set_quantidade q r0)].
Proof.
  intros Hone. destruct (cart_lines_one_inv _ _ _ _ _ _ Hone) as (Hk0 & HP & Huniq).
  unfold cart_lines. simpl. apply objects_filter_one.
  - apply lookup_insert_eq.
  - done.
  - intros k' r' Hk' HP'. destruct (decide (k' = k0)) as [|Hne]; [done|].
    rewrite lookup_insert_ne in Hk' by done. eauto.
Qed.

Lemma remove_from_cart_deletes request u item_id r db :
  user request = Some u →
  Carrinhos_objects db !! item_id = Some r → usuario r = u →
  (remove_from_cart request item_id db).2
  = set_Carrinhos (delete item_id (Carrinhos_objects db)) db.
Proof.
  intros Hu Hk Hr. unfold remove_from_cart. run_view. rewrite Hu.
  rewrite (get_by_pk_found (usuario_is u) _ _ _ Hk Hr). simpl.
  unfold related_epi, delete_row. simpl. by destruct (Epis_objects db !! epi r).
Qed.

(** X7. remove_from_cart deletes the caller's own line on any request, a
    GET as well as a POST, and whatever the kind of the line; every other
    line stays, and the answer is a redirect to the cart page. *)
Theorem remove_from_cart_deletes_own_line request u item_id r e db :
  user request = Some u →
  Carrinhos_objects db !! item_id = Some r → usuario r = u →
  Epis_objects db !! epi r = Some e →
  remove_from_cart request item_id db
  = (Ok (redirect "view_cart" None [msg_removido (nome e)]),
     set_Carrinhos (delete item_id (Carrinhos_objects db)) db)
  ∧ Carrinhos_objects (remove_from_cart request item_id db).2 !! item_id = None
  ∧ ∀ k, k ≠ item_id →
      Carrinhos_objects (remove_from_cart request item_id db).2 !! k
      = Carrinhos_objects db !! k.
Proof.
  intros Hu Hk Hr He.
  assert (remove_from_cart request item_id db
          = (Ok (redirect "view_cart" None [msg_removido (nome e)]),
             set_Carrinhos (delete item_id (Carrinhos_objects db)) db)) as ->.
  { unfold remove_from_cart. run_view. rewrite Hu.
    rewrite (get_by_pk_found (usuario_is u) _ _ _ Hk Hr). simpl.
    unfold related_epi, delete_row. simpl. by rewrite He. }
  simpl. split_and!; [done|apply lookup_delete_eq|].
  intros k Hne. by apply lookup_delete_ne.
Qed.

(** X8. Removing a line a second time is not a silent success: once the
    owner has removed it, any further remove_from_cart for that key raises
    Http404 and writes nothing. *)
Theorem remove_twice_404 request request' u u' item_id r db :
  user request = Some u → user request' = Some u' →
  Carrinhos_objects db !! item_id = Some r → usuario r = u →
  let db1 := (remove_from_cart request item_id db).2 in
  remove_from_cart request' item_id db1 = (Raise Http404, db1).
Proof.
  intros Hu Hu' Hk Hr db1. subst db1.
  rewrite (remove_from_cart_deletes _ _ _ _ _ Hu Hk Hr).
  unfold remove_from_cart at 1. run_view. rewrite Hu'.
  rewrite (get_by_pk_missing (usuario_is u')); [done|].
  intros r'. simpl. by rewrite lookup_delete_eq.
Qed.



(** X11. Two successive valid adds of q1 and q2 of an item leave the same
    database as one add of q1 + q2, whether the user's cart had a line for
    the item or not, as long as the quantity stored after each add is
    within the range of the quantity column. *)
Theorem adds_accumulate request1 request2 request12 u q1 q2 i e db :
  posts request1 u q1 → posts request2 u q2 → posts request12 u (q1 + q2) →
  (1 ≤ q1)%Z → (1 ≤ q2)%Z →
  Epis_objects db !! i = Some e →
  length (cart_lines u i COMPRA db) ≤ 1 →
  in_column_range (stored_quantity u i db + q1) →
  in_column_range (stored_quantity u i db + q1 + q2) →
  (add_to_cart request2 i (add_to_cart request1 i db).2).2
  = (add_to_cart request12 i db).2.
Proof.
  intros H1 H2 H12 Hq1 Hq2 He Hlen Hr1 Hr2.
  assert (1 ≤ q1 + q2)%Z as Hq12 by lia.
  unfold stored_quantity in Hr1, Hr2.
  destruct (cart_lines u i COMPRA db) as [|[k r] [|y l]] eqn:Hlines;
    simpl in Hlen; [| |lia].
  - rewrite (add_to_cart_creates _ _ _ _ _ _ H1 Hq1 He Hlines).
    rewrite (add_to_cart_creates _ _ _ _ _ _ H12 Hq12 He Hlines). simpl.
    erewrite add_to_cart_increments;
      [|done|done|done|by apply cart_lines_after_create|done].
    simpl. rewrite set_Carrinhos_twice. by rewrite insert_insert_eq.
  - rewrite (add_to_cart_increments _ _ _ _ _ _ _ _ H1 Hq1 He Hlines Hr1).
    rewrite (add_to_cart_increments _ _ _ _ _ _ _ _ H12 Hq12 He Hlines)
      by (by rewrite Z.add_assoc).
    simpl.
    erewrite add_to_cart_increments;
      [|done|done|done|by apply cart_lines_after_set|done].
    simpl. rewrite set_Carrinhos_twice, insert_insert_eq.
    unfold set_quantidade. simpl. by rewrite Z.add_assoc.
Qed.

(** ** What the views never do *)

Lemma sum_from_reads lines : ∀ acc db, (sum_from acc lines db).2 = db.
Proof.
  induction lines as [|[k r] lines IH]; intros acc db; simpl; [done|].
  unfold mbind, View_bind, related_epi. simpl.
  destruct (Epis_objects db !! epi r); [apply IH|done].
Qed.

Lemma filter_agree {A} (P Q : A → Prop) `{∀ x, Decision (P x)} `{∀ x, Decision (Q x)}
    (l : list A) :
  Forall (λ x, P x ↔ Q x) l → filter P l = filter Q l.
Proof.
  induction 1 as [|x l Hx _ IH]; [done|].
  rewrite !filter_cons, IH.
  destruct (decide (P x)), (decide (Q x)); tauto.
Qed.

(** X12. No cart view ever touches the catalog: after add_to_cart,
    update_cart or remove_from_cart, on any request, every catalog row is
    what it was, its stock and its price included. *)
Theorem cart_views_keep_catalog request k db :
  Epis_objects (add_to_cart request k db).2 = Epis_objects db
  ∧ Epis_objects (update_cart request k db).2 = Epis_objects db
  ∧ Epis_objects (remove_from_cart request k db).2 = Epis_objects db.
Proof.
  split_and!.
  - by destruct (add_to_cart_effect request k db) as (t' & -> & _).
  - by destruct (update_cart_effect request k db) as (t' & -> & _).
  - by destruct (remove_from_cart_effect request k db) as (t' & -> & _).
Qed.

(** X13. view_cart, index, EpiList and EpiDetail only read: on every
    request, and also when they raise, the database they leave is the
    database they found. *)
Theorem listing_views_write_nothing request pk db :
  (view_cart request db).2 = db
  ∧ (index request db).2 = db
  ∧ (EpiList request db).2 = db
  ∧ (EpiDetail request pk db).2 = db.
Proof.
  split_and!.
  - unfold view_cart, view_cart_itens. run_view.
    destruct (user request) as [u|]; [|done].
    pose proof (sum_from_reads
      (objects_filter (λ kr, usuario_is u kr ∧ tipo_is COMPRA kr) (Carrinhos_objects db))
      0%Z db) as Hsum.
    destruct (sum_from _ _ db) as [[z|e] db']; simpl in *; by subst.
  - assert (load_global "Epis" db = (Ok tt, db)) as HEpis
      by (apply load_global_bound, (bool_decide_unpack _); by vm_compute).
    assert (load_global "Q" db = (Ok tt, db)) as HQ
      by (apply load_global_bound, (bool_decide_unpack _); by vm_compute).
    assert (load_global "Paginator" db = (Raise (NameError "Paginator"), db)) as HP.
    { unfold load_global. rewrite bool_decide_eq_false_2; [done|apply Paginator_unbound]. }
    unfold index, login_required. destruct (user request) as [u|]; [|done].
    unfold mbind, View_bind.
    destruct (truthy (GET_search request)) as [q|];
      rewrite HEpis, ?HQ; unfold read; by rewrite HP.
  - unfold EpiList, dispatch_get. run_view. destruct (user request) as [u|]; [|done].
    repeat case_bool_decide; simpl; [|done..].
    by destruct (paginate_queryset _ _ _).
  - unfold EpiDetail, dispatch_get. run_view. destruct (user request) as [u|]; [|done].
    repeat case_bool_decide; simpl; [|done..].
    by destruct (get_object_or_404 _ _).
Qed.

(** X14. A request without a logged-in user gets the redirect to the login
    page from every view of the shop, and nothing is read into a page or
    written. *)
Theorem anonymous_redirected request k db :
  user request = None →
  index request db = (Ok redirect_login, db)
  ∧ EpiList request db = (Ok redirect_login, db)
  ∧ EpiDetail request k db = (Ok redirect_login, db)
  ∧ add_to_cart request k db = (Ok redirect_login, db)
  ∧ view_cart request db = (Ok redirect_login, db)
  ∧ remove_from_cart request k db = (Ok redirect_login, db)
  ∧ update_cart request k db = (Ok redirect_login, db).
Proof.
  intros Hu.
  unfold index, EpiList, EpiDetail, add_to_cart, view_cart, remove_from_cart,
    update_cart, login_required.
  rewrite Hu. done.
Qed.

(** X15. In every store reachable by the cart views from an empty cart
    table, view_cart does not fail for a logged-in user: it answers with
    the cart page, which lists every cart line of that user and no other
    line. *)
Theorem reachable_cart_page_lists_all_lines request u db :
  reachable db → user request = Some u →
  ∃ valor_total,
    view_cart request db
    = (Ok (render "epi_shops/carrinho.html"
             (ctx_carrinho (objects_filter (usuario_is u) (Carrinhos_objects db))
                valor_total)), db).
Proof.
  intros Hreach Hu.
  pose proof (reachable_compra_in_catalog db Hreach) as Hinv.
  assert (objects_filter (λ kr, usuario_is u kr ∧ tipo_is COMPRA kr) (Carrinhos_objects db)
          = objects_filter (usuario_is u) (Carrinhos_objects db)) as Hall.
  { unfold objects_filter. apply filter_agree, Forall_forall. intros [k r] Hin.
    apply elem_of_objects_all in Hin. destruct (Hinv k r Hin) as [Ht _].
    unfold tipo_is. simpl. tauto. }
  unfold view_cart, view_cart_itens. run_view. rewrite Hu, Hall.
  rewrite sum_from_total.
  - by eexists.
  - apply Forall_forall. intros [k r] Hin.
    apply elem_of_objects_filter in Hin as [_ Hk]. by apply (Hinv k r).
Qed.

(** X16. On a GET by a logged-in user EpiDetail answers with the catalog
    row of the key in the URL when there is one and raises Http404 when
    there is none; a method other than GET, HEAD and OPTIONS is answered
    with 405 without a look at the catalog. *)
Theorem EpiDetail_row_or_404 request u pk db :
  user request = Some u →
  (method request = "GET" →
   match Epis_objects db !! pk with
   | Some e =>
       EpiDetail request pk db
       = (Ok (render "epi_shops/epi_detail.html" (ctx_add_to_cart FormUnbound (pk, e))),
          db)
   | None => EpiDetail request pk db = (Raise Http404, db)
   end)
  ∧ (method request ∉ ["GET"; "HEAD"; "OPTIONS"] →
     EpiDetail request pk db = (Ok method_not_allowed, db)).
Proof.
  intros Hu. unfold EpiDetail, dispatch_get. run_view. rewrite Hu. split.
  - intros ->. simpl. destruct (Epis_objects db !! pk) as [e|] eqn:He.
    + by rewrite (get_pk_found _ _ _ He).
    + by rewrite (get_pk_missing _ _ He).
  - intros Hm. apply not_elem_of_cons in Hm as [H1 Hm].
    apply not_elem_of_cons in Hm as [H2 Hm]. apply not_elem_of_cons in Hm as [H3 _].
    rewrite bool_decide_eq_false_2 by tauto. by rewrite bool_decide_eq_false_2.
Qed.

(** ** Search and pages *)


Lemma truthy_nonempty q : q ≠ EmptyString → truthy (Some q) = Some q.
Proof. by destruct q. Qed.

Lemma lower_empty q : lower q = EmptyString → q = EmptyString.
Proof. by destruct q. Qed.

(** X17. The search disregards the case of the letters A to Z in the
    query: two queries that are the same text up to the case of those
    letters give the same query set, rows and order. *)
Theorem search_ignores_query_case request q q' epis :
  same_text q q' →
  get_queryset (set_search q' request) epis
  = get_queryset (set_search q request) epis.
Proof.
  intros Hsame. unfold get_queryset, set_search. cbn [GET_search].
  destruct Hsame as [|a b s t Hab Hst]; [done|].
  rewrite !truthy_nonempty by done.
  apply list_filter_iff. intros kr. unfold search_matches, icontains.
  assert (lower (String b t) = lower (String a s)) as ->; [|done].
  symmetry. apply same_text_lower. by constructor.
Qed.


Lemma chunks_concat {A} (k : nat) : ∀ l : list A,
  length l ≤ 10 * k →
  concat ((λ i, take 10 (drop (10 * i) l)) <$> seq 0 k) = l.
Proof.
  induction k as [|k IH]; intros l Hlen.
  - destruct l; simpl in *; [done|lia].
  - transitivity (take 10 l ++ drop 10 l); [|apply take_drop].
    cbn [seq fmap list_fmap concat]. f_equal.
    transitivity (concat ((λ i, take 10 (drop (10 * i) (drop 10 l))) <$> seq 0 k));
      [|apply IH; rewrite length_drop; lia].
    rewrite <- fmap_S_seq, <- list_fmap_compose. f_equal.
    apply list_fmap_ext. intros _ i _. cbn [compose]. rewrite drop_drop.
    do 2 f_equal. lia.
Qed.

Lemma num_pages_covers (items : list (nat * Epis)) :
  (1 ≤ num_pages items paginate_by)%Z
  ∧ length items ≤ 10 * Z.to_nat (num_pages items paginate_by)
  ∧ 10 * (Z.to_nat (num_pages items paginate_by) - 1) ≤ length items.
Proof.
  unfold num_pages, paginate_by, count.
  pose proof (Z.div_mod (- Z.max 1 (Z.of_nat (length items))) 10) as Hdm.
  pose proof (Z.mod_pos_bound (- Z.max 1 (Z.of_nat (length items))) 10) as Hb.
  lia.
Qed.

Lemma EpiList_rows_page request u db n :
  user request = Some u → method request = "GET" →
  let matching := get_queryset request (Epis_objects db) in
  (1 ≤ n ≤ num_pages matching paginate_by)%Z →
  EpiList_rows (set_page n request) db
  = take 10 (drop (10 * (Z.to_nat n - 1)) matching).
Proof.
  intros Hu Hm matching Hn.
  unfold EpiList_rows. rewrite (EpiList_get (set_page n request) u db Hu Hm).
  change (get_queryset (set_page n request) (Epis_objects db)) with matching.
  unfold paginate_queryset. cbn [GET_page set_page fst].
  destruct (page_valid matching paginate_by n Hn) as [p Hp]. rewrite Hp.
  apply page_slice in Hp as (_ & _ & ->); [|done].
  unfold paginate_by. do 2 f_equal. lia.
Qed.

(** X19. On GET requests of a logged-in user the pages of the listing cover
    the matching rows: laid end to end, pages 1 to the last give the whole
    matching query set, every row once and in the order of the query set
    (ascending primary key). *)
Theorem EpiList_pages_cover request u db :
  user request = Some u → method request = "GET" →
  let matching := get_queryset request (Epis_objects db) in
  concat ((λ n, EpiList_rows (set_page n request) db)
            <$> seqZ 1 (num_pages matching paginate_by))
  = matching.
Proof.
  intros Hu Hm matching.
  destruct (num_pages_covers matching) as (Hnp & Hlen & _).
  rewrite <- (chunks_concat (Z.to_nat (num_pages matching paginate_by)) matching Hlen) at 2.
  unfold seqZ. rewrite <- list_fmap_compose. f_equal.
  apply Forall_fmap_ext_1, Forall_forall. intros i Hi.
  apply elem_of_seq in Hi. simpl.
  rewrite (EpiList_rows_page request u db _ Hu Hm) by (fold matching; lia).
  fold matching. do 3 f_equal. lia.
Qed.

(** X20. On a GET by a logged-in user the listing has no page outside 1 to
    the last: for a page number below 1 or above the number of pages, and
    for a page parameter that is neither an integer nor the word last,
    EpiList raises Http404; for the word last it gives the last page, which
    holds the rows from row 10 * (last - 1) on; with no page parameter it
    gives the first ten rows. *)
Theorem EpiList_page_bounds request u db :
  user request = Some u → method request = "GET" →
  let matching := get_queryset request (Epis_objects db) in
  let last := num_pages matching paginate_by in
  match GET_page request with
  | Some (PageInt n) =>
      (n < 1 ∨ last < n)%Z → EpiList request db = (Raise Http404, db)
  | Some (PageOther _) => EpiList request db = (Raise Http404, db)
  | Some PageLast =>
      EpiList_rows request db = drop (10 * (Z.to_nat last - 1)) matching
  | None => EpiList_rows request db = take 10 matching
  end.
Proof.
  intros Hu Hm matching last.
  destruct (num_pages_covers matching) as (Hnp & Hlen & Hlast). fold last in Hnp, Hlen, Hlast.
  unfold EpiList_rows. rewrite (EpiList_get request u db Hu Hm). fold matching.
  unfold paginate_queryset.
  destruct (GET_page request) as [[n| |raw]|] eqn:Hpage.
  - intros Hout. unfold page, validate_number. fold last.
    case_bool_decide; [done|]. rewrite bool_decide_eq_true_2 by lia. done.
  - fold last.
    destruct (page_valid matching paginate_by last) as [p Hp]; [lia|]. rewrite Hp. simpl.
    apply page_slice in Hp as (_ & _ & ->); [|done].
    unfold paginate_by.
    replace (Z.to_nat ((last - 1) * 10)) with (10 * (Z.to_nat last - 1)) by lia.
    apply take_ge. rewrite length_drop. lia.
  - done.
  - destruct (page_valid matching paginate_by 1) as [p Hp]; [lia|]. rewrite Hp. simpl.
    by apply page_slice in Hp as (_ & _ & ->).
Qed.

(** X25. The cart views only ever leave purchase-request lines that point
    to a row of the catalog: in every store reachable by them from an empty
    cart table, each line has the kind COMPRA and its item is in the
    catalog. *)
Theorem reachable_lines_are_purchases_of_catalog_items db k r :
  reachable db →
  Carrinhos_objects db !! k = Some r →
  tipo r = COMPRA ∧ is_Some (Epis_objects db !! epi r).
Proof. intros Hreach Hk. by apply (reachable_compra_in_catalog db Hreach k r). Qed.

(** X26. When the user's line for the item holds a quantity that the
    added quantity would take beyond the range of the quantity column, a
    valid add raises OverflowError and writes nothing: the line keeps the
    quantity it had. *)
Theorem add_to_cart_overflow_raises request u q i e k r db :
  posts request u q → (1 ≤ q)%Z →
  Epis_objects db !! i = Some e →
  cart_lines u i COMPRA db = [(k, r)] →
  (quantidade_max < quantidade r + q)%Z →
  add_to_cart request i db = (Raise OverflowError, db)
  ∧ Carrinhos_objects (add_to_cart request i db).2 !! k = Some r.
Proof.
  intros Hp Hq He Hone Hbig.
  rewrite (add_to_cart_overflows _ _ _ _ _ _ _ _ Hp Hq He Hone)
    by (unfold in_column_range; lia).
  split; [done|]. simpl. by destruct (cart_lines_one_inv _ _ _ _ _ _ Hone) as [Hk _].
Qed.

(** ** The total follows the cart *)

Lemma total_of_perm epis l1 l2 : l1 ≡ₚ l2 → total_of epis l1 = total_of epis l2.
Proof. induction 1; simpl; lia. Qed.

Section total_of_tables.
Context (epis : gmap nat Epis) (P : nat * Carrinhos → Prop) `{∀ x, Decision (P x)}.
Implicit Types t : gmap nat Carrinhos.

Lemma total_filter_insert_fresh t k r :
  t !! k = None →
  total_of epis (objects_filter P (<[k := r]> t))
  = ((if decide (P (k, r)) then line_value epis r else 0)
     + total_of epis (objects_filter P t))%Z.
Proof.
  intros Hk. unfold objects_filter.
  rewrite (total_of_perm _ _ (filter P ((k, r) :: objects_all t)))
    by (by rewrite !objects_all_perm, map_to_list_insert).
  rewrite filter_cons. by destruct (decide (P (k, r))).
Qed.

Lemma total_filter_delete t k r :
  t !! k = Some r →
  total_of epis (objects_filter P (delete k t))
  = (total_of epis (objects_filter P t)
     - (if decide (P (k, r)) then line_value epis r else 0))%Z.
Proof.
  intros Hk. rewrite <- (insert_delete_id t k r Hk) at 2.
  rewrite total_filter_insert_fresh by apply lookup_delete_eq. lia.
Qed.

Lemma total_filter_insert t k r r' :
  t !! k = Some r →
  total_of epis (objects_filter P (<[k := r']> t))
  = (total_of epis (objects_filter P t)
     - (if decide (P (k, r)) then line_value epis r else 0)
     + (if decide (P (k, r')) then line_value epis r' else 0))%Z.
Proof.
  intros Hk. rewrite <- insert_delete_eq.
  rewrite total_filter_insert_fresh by apply lookup_delete_eq.
  rewrite (total_filter_delete t k r Hk). lia.
Qed.
End total_of_tables.

Lemma fk_ok_insert db k r :
  fk_ok db → is_Some (Epis_objects db !! epi r) →
  fk_ok (set_Carrinhos (<[k := r]> (Carrinhos_objects db)) db).
Proof. intros Hfk Hr. unfold fk_ok. simpl. by apply map_Forall_insert_2. Qed.

Lemma fk_ok_delete db k :
  fk_ok db → fk_ok (set_Carrinhos (delete k (Carrinhos_objects db)) db).
Proof. intros Hfk. unfold fk_ok. simpl. by apply map_Forall_delete. Qed.

(** X22. A valid add of q units of an item priced at valor raises the
    total of the user's cart page by valor * q, whether the cart had a line
    for the item or not, as long as the quantity stored after the add is
    within the range of the quantity column. *)
Theorem add_raises_total request u q i e db :
  posts request u q → (1 ≤ q)%Z →
  Epis_objects db !! i = Some e → fk_ok db →
  length (cart_lines u i COMPRA db) ≤ 1 →
  in_column_range (stored_quantity u i db + q) →
  let db1 := (add_to_cart request i db).2 in
  ∃ before,
    view_cart_valor_total u db = (Ok before, db)
    ∧ view_cart_valor_total u db1 = (Ok (before + valor e * q)%Z, db1).
Proof.
  intros Hp Hq He Hfk Hlen Hrange db1.
  exists (total_of (Epis_objects db) (compra_lines db u)).
  split; [by apply view_cart_valor_total_ok|]. subst db1.
  unfold stored_quantity in Hrange.
  destruct (cart_lines u i COMPRA db) as [|[k r] [|y l]] eqn:Hlines;
    simpl in Hlen; [| |lia].
  - rewrite (add_to_cart_creates _ _ _ _ _ _ Hp Hq He Hlines).
    cbn [snd]. rewrite view_cart_valor_total_ok by (apply fk_ok_insert; by eauto).
    do 2 f_equal. unfold compra_lines. cbn [Carrinhos_objects Epis_objects set_Carrinhos].
    rewrite total_filter_insert_fresh by apply new_pk_fresh.
    rewrite decide_True by done. unfold line_value. simpl. rewrite He. lia.
  - destruct (cart_lines_one_inv _ _ _ _ _ _ Hlines) as (Hk & (Hu & Hi & Ht) & _).
    rewrite (add_to_cart_increments _ _ _ _ _ _ _ _ Hp Hq He Hlines Hrange).
    cbn [snd]. rewrite view_cart_valor_total_ok
      by (apply fk_ok_insert; [done|simpl; rewrite Hi; by eauto]).
    do 2 f_equal. unfold compra_lines. cbn [Carrinhos_objects Epis_objects set_Carrinhos].
    rewrite (total_filter_insert _ _ _ _ r) by done.
    rewrite !decide_True by done. unfold line_value. simpl. rewrite Hi, He. lia.
Qed.


(** X24. Removing a purchase-request line lowers the total of the owner's
    cart page by the value of that line, the price of its item times its
    quantity. *)
Theorem remove_lowers_total request u item_id r e db :
  user request = Some u →
  Carrinhos_objects db !! item_id = Some r → usuario r = u → tipo r = COMPRA →
  Epis_objects db !! epi r = Some e → fk_ok db →
  let db1 := (remove_from_cart request item_id db).2 in
  ∃ before,
    view_cart_valor_total u db = (Ok before, db)
    ∧ view_cart_valor_total u db1 = (Ok (before - valor e * quantidade r)%Z, db1).
Proof.
  intros Hu' Hk Hu Ht He Hfk db1.
  exists (total_of (Epis_objects db) (compra_lines db u)).
  split; [by apply view_cart_valor_total_ok|]. subst db1.
  rewrite (remove_from_cart_deletes _ _ _ _ _ Hu' Hk Hu).
  rewrite view_cart_valor_total_ok by (by apply fk_ok_delete).
  do 2 f_equal. unfold compra_lines. cbn [Carrinhos_objects Epis_objects set_Carrinhos].
  rewrite (total_filter_delete _ _ _ _ r) by done.
  rewrite decide_True by done. unfold line_value. rewrite He. lia.
Qed.

(** ** Sessions *)

(** X21. After login_view the logged-in user is the one the backend
    answered with for the posted username and senha, and then the answer
    is the redirect to the listing; in every other case (another method,
    credentials the backend rejects) the session is as it was, so a failed
    attempt logs nobody out.  After logout_view nobody is logged in, and
    its goodbye message is sent exactly when somebody was. *)
Theorem login_logout_sessions authenticate request session :
  let after := (login_view authenticate request session).2 in
  (after = session
   ∨ (auth_method request = "POST"
      ∧ after = authenticate (POST_username request) (POST_senha request)
      ∧ is_Some after
      ∧ (login_view authenticate request session).1
        = auth_redirect "epi_list" [msg_login_realizado]))
  ∧ (logout_view after).2 = None
  ∧ (∀ s, (logout_view s).2 = None
          ∧ ((logout_view s).1 = auth_redirect "login" [msg_logout_realizado]
             ↔ is_Some s)).
Proof.
  intros after. subst after. unfold login_view. split_and!.
  - case_bool_decide as Hm; [|by left].
    destruct (authenticate _ _) as [user|] eqn:Ha; [|by left].
    right. simpl. split_and!; [done..|by eexists|done].
  - by destruct (if bool_decide _ then _ else _) as [resp [user|]].
  - intros [user|]; simpl; (split; [done|]).
    + split; [by eexists|done].
    + split; [done|]. by intros [? ?].
Qed.

Example ana_logs_in_and_out :
  login_view one_user ana_posts None
  = (auth_redirect "epi_list" [msg_login_realizado], Some 7)
  ∧ login_view one_user (mkAuthRequest "POST" (Some "ana") (Some "errada")) (Some 3)
    = (auth_render "login_app/pages/login.html" [msg_credenciais_invalidas], Some 3)
  ∧ logout_view (login_view one_user ana_posts None).2
    = (auth_redirect "login" [msg_logout_realizado], None)
  ∧ logout_view None = (auth_redirect_login, None).
Proof. by vm_compute. Qed.

(** ** The further statements at work on the examples *)

Lemma other_users_lines_untouched_witness :
  (∀ pk, Carrinhos_objects (add_to_cart (post 8 3) pk after2).2 !! 1 = Some five_helmets
         ↔ Carrinhos_objects after2 !! 1 = Some five_helmets)
  ∧ (∀ item_id,
       Carrinhos_objects (update_cart (post 8 3) item_id after2).2 !! 1 = Some five_helmets
       ↔ Carrinhos_objects after2 !! 1 = Some five_helmets)
  ∧ (∀ item_id,
       Carrinhos_objects (remove_from_cart (post 8 3) item_id after2).2 !! 1
       = Some five_helmets
       ↔ Carrinhos_objects after2 !! 1 = Some five_helmets).
Proof.
  apply (other_users_lines_untouched (post 8 3) 8 after2 1 five_helmets).
  - reflexivity.
  - simpl. lia.
Defined.

Lemma add_to_cart_frame_witness :
  is_Some (Carrinhos_objects (add_to_cart (post 7 1) 2 after2).2 !! 1)
  ∧ (¬ (usuario five_helmets = 7 ∧ epi five_helmets = 2 ∧ tipo five_helmets = COMPRA) →
     Carrinhos_objects (add_to_cart (post 7 1) 2 after2).2 !! 1 = Some five_helmets).
Proof.
  apply (add_to_cart_frame (post 7 1) 7 2 after2 1 five_helmets).
  - reflexivity.
  - vm_compute. reflexivity.
Defined.

Lemma add_to_cart_unknown_item_404_witness :
  add_to_cart (post 7 1) 9 db0 = (Raise Http404, db0).
Proof.
  apply (add_to_cart_unknown_item_404 (post 7 1) 7 9 db0).
  - reflexivity.
  - vm_compute. reflexivity.
Defined.

Lemma cart_writes_need_valid_post_witness :
  (∀ pk, (add_to_cart (get 7) pk after2).2 = after2)
  ∧ (∀ item_id, (update_cart (get 7) item_id after2).2 = after2).
Proof.
  apply (cart_writes_need_valid_post (get 7) after2).
  left. simpl. discriminate.
Defined.

Lemma add_to_cart_duplicate_lines_raise_witness :
  add_to_cart (post 7 1) 1 db_twice = (Raise MultipleObjectsReturned, db_twice).
Proof.
  apply (add_to_cart_duplicate_lines_raise (post 7 1) 7 1 1 helmet db_twice).
  - repeat split.
  - lia.
  - vm_compute. reflexivity.
  - vm_compute. lia.
Defined.

Lemma update_cart_foreign_line_404_witness :
  update_cart (post 8 3) 1 after2 = (Raise Http404, after2).
Proof.
  apply (update_cart_foreign_line_404 (post 8 3) 8 1 after2).
  - reflexivity.
  - intros r Hr. vm_compute in Hr. injection Hr as <-. simpl. lia.
Defined.

Lemma remove_from_cart_deletes_own_line_witness :
  remove_from_cart (get 7) 1 after2
  = (Ok (redirect "view_cart" None [msg_removido (nome helmet)]),
     set_Carrinhos (delete 1 (Carrinhos_objects after2)) after2)
  ∧ Carrinhos_objects (remove_from_cart (get 7) 1 after2).2 !! 1 = None
  ∧ ∀ k, k ≠ 1 →
      Carrinhos_objects (remove_from_cart (get 7) 1 after2).2 !! k
      = Carrinhos_objects after2 !! k.
Proof.
  apply (remove_from_cart_deletes_own_line (get 7) 7 1 five_helmets helmet after2).
  - reflexivity.
  - vm_compute. reflexivity.
  - reflexivity.
  - vm_compute. reflexivity.
Defined.

Lemma remove_twice_404_witness :
  let db1 := (remove_from_cart (get 7) 1 after2).2 in
  remove_from_cart (get 7) 1 db1 = (Raise Http404, db1).
Proof.
  apply (remove_twice_404 (get 7) (get 7) 7 7 1 five_helmets after2).
  - reflexivity.
  - reflexivity.
  - vm_compute. reflexivity.
  - reflexivity.
Defined.



Lemma adds_accumulate_witness :
  (add_to_cart (post 7 3) 1 (add_to_cart (post 7 2) 1 db0).2).2
  = (add_to_cart (post 7 (2 + 3)) 1 db0).2.
Proof.
  apply (adds_accumulate (post 7 2) (post 7 3) (post 7 (2 + 3)) 7 2 3 1 helmet db0).
  - repeat split.
  - repeat split.
  - repeat split.
  - lia.
  - lia.
  - vm_compute. reflexivity.
  - vm_compute. lia.
  - apply (bool_decide_unpack _). vm_compute. exact I.
  - apply (bool_decide_unpack _). vm_compute. exact I.
Defined.

Lemma anonymous_redirected_witness :
  index anonymous after2 = (Ok redirect_login, after2)
  ∧ EpiList anonymous after2 = (Ok redirect_login, after2)
  ∧ EpiDetail anonymous 1 after2 = (Ok redirect_login, after2)
  ∧ add_to_cart anonymous 1 after2 = (Ok redirect_login, after2)
  ∧ view_cart anonymous after2 = (Ok redirect_login, after2)
  ∧ remove_from_cart anonymous 1 after2 = (Ok redirect_login, after2)
  ∧ update_cart anonymous 1 after2 = (Ok redirect_login, after2).
Proof. apply (anonymous_redirected anonymous 1 after2). reflexivity. Defined.

Lemma reachable_cart_page_lists_all_lines_witness :
  ∃ valor_total,
    view_cart (get 7) after2
    = (Ok (render "epi_shops/carrinho.html"
             (ctx_carrinho (objects_filter (usuario_is 7) (Carrinhos_objects after2))
                valor_total)), after2).
Proof.
  apply (reachable_cart_page_lists_all_lines (get 7) 7 after2).
  - unfold after2. apply reach_add, reach_add. apply (reach_empty catalog0).
  - reflexivity.
Defined.

Lemma EpiDetail_row_or_404_witness :
  (method (get 7) = "GET" →
   match Epis_objects db0 !! 1 with
   | Some e =>
       EpiDetail (get 7) 1 db0
       = (Ok (render "epi_shops/epi_detail.html" (ctx_add_to_cart FormUnbound (1, e))),
          db0)
   | None => EpiDetail (get 7) 1 db0 = (Raise Http404, db0)
   end)
  ∧ (method (get 7) ∉ ["GET"; "HEAD"; "OPTIONS"] →
     EpiDetail (get 7) 1 db0 = (Ok method_not_allowed, db0)).
Proof. apply (EpiDetail_row_or_404 (get 7) 7 1 db0). reflexivity. Defined.


Lemma EpiList_pages_cover_witness :
  let matching := get_queryset (get 7) (Epis_objects db12) in
  concat ((λ n, EpiList_rows (set_page n (get 7)) db12)
            <$> seqZ 1 (num_pages matching paginate_by))
  = matching.
Proof. apply (EpiList_pages_cover (get 7) 7 db12); reflexivity. Defined.

Lemma EpiList_page_bounds_witness :
  let request := set_page 3 (get 7) in
  let matching := get_queryset request (Epis_objects db12) in
  let last := num_pages matching paginate_by in
  match GET_page request with
  | Some (PageInt n) =>
      (n < 1 ∨ last < n)%Z → EpiList request db12 = (Raise Http404, db12)
  | Some (PageOther _) => EpiList request db12 = (Raise Http404, db12)
  | Some PageLast =>
      EpiList_rows request db12 = drop (10 * (Z.to_nat last - 1)) matching
  | None => EpiList_rows request db12 = take 10 matching
  end.
Proof. apply (EpiList_page_bounds (set_page 3 (get 7)) 7 db12); reflexivity. Defined.

Lemma add_raises_total_witness :
  let db1 := (add_to_cart (post 7 3) 1 db0).2 in
  ∃ before,
    view_cart_valor_total 7 db0 = (Ok before, db0)
    ∧ view_cart_valor_total 7 db1 = (Ok (before + valor helmet * 3)%Z, db1).
Proof.
  apply (add_raises_total (post 7 3) 7 3 1 helmet db0).
  - repeat split.
  - lia.
  - vm_compute. reflexivity.
  - apply (bool_decide_unpack _). vm_compute. exact I.
  - vm_compute. lia.
  - apply (bool_decide_unpack _). vm_compute. exact I.
Defined.


Lemma remove_lowers_total_witness :
  let db1 := (remove_from_cart (get 7) 1 after2).2 in
  ∃ before,
    view_cart_valor_total 7 after2 = (Ok before, after2)
    ∧ view_cart_valor_total 7 db1
      = (Ok (before - valor helmet * quantidade five_helmets)%Z, db1).
Proof.
  apply (remove_lowers_total (get 7) 7 1 five_helmets helmet after2).
  - reflexivity.
  - vm_compute. reflexivity.
  - reflexivity.
  - reflexivity.
  - vm_compute. reflexivity.
  - apply (bool_decide_unpack _). vm_compute. exact I.
Defined.

Lemma reachable_lines_are_purchases_of_catalog_items_witness :
  tipo five_helmets = COMPRA ∧ is_Some (Epis_objects after2 !! epi five_helmets).
Proof.
  apply (reachable_lines_are_purchases_of_catalog_items after2 1 five_helmets).
  - unfold after2. apply reach_add, reach_add. apply (reach_empty catalog0).
  - vm_compute. reflexivity.
Defined.

Lemma search_ignores_query_case_witness :
  get_queryset (set_search "HeLm" (get 7)) catalog0
  = get_queryset (set_search "helm" (get 7)) catalog0.
Proof.
  apply (search_ignores_query_case (get 7) "helm" "HeLm" catalog0).
  repeat constructor; right; right; split; vm_compute; lia.
Defined.

Lemma add_to_cart_overflow_raises_witness :
  add_to_cart (post 7 1) 1 db_full = (Raise OverflowError, db_full)
  ∧ Carrinhos_objects (add_to_cart (post 7 1) 1 db_full).2 !! 1
    = Some (mkCarrinhos 7 1 quantidade_max COMPRA).
Proof.
  apply (add_to_cart_overflow_raises (post 7 1) 7 1 1 helmet 1
           (mkCarrinhos 7 1 quantidade_max COMPRA) db_full).
  - repeat split.
  - lia.
  - vm_compute. reflexivity.
  - vm_compute. reflexivity.
  - vm_compute. reflexivity.
Defined.
